(** * recommendationservice: the request path and the start-up sequence of
      [recommendation_server_svd.py]

    A shallow embedding of the gRPC recommendation server: the identity
    bucketing of line 135 (SHA-1 of the caller's token, reduced modulo the
    number of training users), the [ListRecommendations] handler, the health
    handlers and the [__main__] start-up sequence together with
    [initStackdriverProfiling].

    Python values are modelled as follows.  Integers are [Z].  A [bytes]
    object is a [list Z] of values below 256.  A [str] that is hashed is the
    list of its code points; the other strings (product ids, log messages,
    environment variables) are [string]s.  Exceptions are values of
    [exception] and a call that may raise returns a [result].  Code with
    visible effects (logging, sleeping, calls into the cloud agents, the gRPC
    server) runs in [prog], which records the effects in order. *)

From Stdlib Require Import ZArith QArith Lia List String Ascii.
From stdpp Require Import base option list strings gmap pretty.

Close Scope Q_scope.
Local Open Scope Z_scope.

(** ** Exceptions and results *)

(** The exception classes that the program raises or names in an [except]
    clause.  [Exception] stands for the class itself and for any subclass not
    listed; [BaseException] for what lies outside [Exception]
    ([KeyboardInterrupt], [SystemExit]).  The argument is [str(exc)]. *)
Inductive exception : Type :=
  | KeyError (msg : string)
  | ValueError (msg : string)
  | ZeroDivisionError (msg : string)
  | UnicodeEncodeError (msg : string)
  | AttributeError (msg : string)
  | DefaultCredentialsError (msg : string)
  | Exception (msg : string)
  | BaseException (msg : string).

Definition str_exc (exc : exception) : string :=
  match exc with
  | KeyError m | ValueError m | ZeroDivisionError m | UnicodeEncodeError m
  | AttributeError m | DefaultCredentialsError m | Exception m
  | BaseException m => m
  end.

(** [isinstance(exc, Exception)]. *)
Definition is_Exception (exc : exception) : bool :=
  match exc with BaseException _ => false | _ => true end.

(** [isinstance(exc, (KeyError, DefaultCredentialsError))]. *)
Definition is_KeyError_or_DefaultCredentialsError (exc : exception) : bool :=
  match exc with KeyError _ | DefaultCredentialsError _ => true | _ => false end.

Inductive result (A : Type) : Type :=
  | Ok (a : A)
  | Raise (exc : exception).
Arguments Ok {A} a.
Arguments Raise {A} exc.

#[global] Instance result_ret : MRet result := fun A a => Ok a.
#[global] Instance result_bind : MBind result := fun A B f r =>
  match r with Ok a => f a | Raise exc => Raise exc end.

(** A value of a [bytes] object. *)
Definition is_byte (b : Z) : Prop := 0 <= b < 256.

(** ** [str.encode("utf-8")] *)

(** A Unicode scalar value: a code point that is not a surrogate. *)
Definition is_scalar (cp : Z) : bool :=
  (0 <=? cp) && (cp <=? 0x10FFFF) && negb ((0xD800 <=? cp) && (cp <=? 0xDFFF)).

(** The value of a protobuf [string] field: protobuf accepts only valid
    UTF-8 on the wire, so the decoded [str] holds scalar values only. *)
Record text : Type := Text {
  code_points : list Z;
  text_scalar : forallb is_scalar code_points = true
}.

Definition encode_code_point (cp : Z) : result (list Z) :=
  if cp <? 0 then Raise (UnicodeEncodeError "not a code point")
  else if cp <? 0x80 then Ok [cp]
  else if cp <? 0x800 then
    Ok [Z.lor 0xC0 (Z.shiftr cp 6); Z.lor 0x80 (Z.land cp 0x3F)]
  else if cp <? 0x10000 then
    if (0xD800 <=? cp) && (cp <=? 0xDFFF)
    then Raise (UnicodeEncodeError "surrogates not allowed")
    else Ok [Z.lor 0xE0 (Z.shiftr cp 12);
             Z.lor 0x80 (Z.land (Z.shiftr cp 6) 0x3F);
             Z.lor 0x80 (Z.land cp 0x3F)]
  else if cp <=? 0x10FFFF then
    Ok [Z.lor 0xF0 (Z.shiftr cp 18);
        Z.lor 0x80 (Z.land (Z.shiftr cp 12) 0x3F);
        Z.lor 0x80 (Z.land (Z.shiftr cp 6) 0x3F);
        Z.lor 0x80 (Z.land cp 0x3F)]
  else Raise (UnicodeEncodeError "not a code point").

Fixpoint encode_utf8 (s : list Z) : result (list Z) :=
  match s with
  | [] => Ok []
  | cp :: s' =>
      b ← encode_code_point cp;
      bs ← encode_utf8 s';
      Ok (b ++ bs)
  end.

(** ** [hashlib.sha1] (FIPS 180-4) *)

Module SHA1.

Definition add32 (x y : Z) : Z := (x + y) mod 2 ^ 32.

Definition rotl32 (n x : Z) : Z :=
  Z.land (Z.lor (Z.shiftl x n) (Z.shiftr x (32 - n))) 0xFFFFFFFF.

Definition not32 (x : Z) : Z := Z.lxor x 0xFFFFFFFF.

(** The [n] low bytes of [x], most significant first. *)
Fixpoint be_bytes (n : nat) (x : Z) : list Z :=
  match n with
  | O => []
  | S n' => (x / 256 ^ Z.of_nat n') mod 256 :: be_bytes n' x
  end.

(** Message, the byte 0x80, zeros up to 56 modulo 64, the bit length on
    eight bytes. *)
Definition pad (msg : list Z) : list Z :=
  let len := Z.of_nat (length msg) in
  msg ++ [0x80] ++ replicate (Z.to_nat ((55 - len) mod 64)) 0
      ++ be_bytes 8 (8 * len).

Fixpoint blocks (fuel : nat) (bs : list Z) : list (list Z) :=
  match fuel with
  | O => []
  | S fuel' =>
      match bs with
      | [] => []
      | _ => take 64 bs :: blocks fuel' (drop 64 bs)
      end
  end.

Fixpoint words (bs : list Z) : list Z :=
  match bs with
  | a :: b :: c :: d :: bs' => (((a * 256 + b) * 256 + c) * 256 + d) :: words bs'
  | _ => []
  end.

(** [n] more words of the message schedule; [w_rev] holds the words so far,
    the latest first, so that w[t-3] is at index 2. *)
Fixpoint schedule (n : nat) (w_rev : list Z) : list Z :=
  match n with
  | O => w_rev
  | S n' =>
      let x := Z.lxor (Z.lxor (nth 2 w_rev 0) (nth 7 w_rev 0))
                      (Z.lxor (nth 13 w_rev 0) (nth 15 w_rev 0)) in
      schedule n' (rotl32 1 x :: w_rev)
  end.

Definition state : Type := Z * Z * Z * Z * Z.

Definition round (st : state) (tw : nat * Z) : state :=
  let '(a, b, c, d, e) := st in
  let '(t, w) := tw in
  let '(f, k) :=
    if (t <? 20)%nat then (Z.lor (Z.land b c) (Z.land (not32 b) d), 0x5A827999)
    else if (t <? 40)%nat then (Z.lxor (Z.lxor b c) d, 0x6ED9EBA1)
    else if (t <? 60)%nat then
      (Z.lor (Z.lor (Z.land b c) (Z.land b d)) (Z.land c d), 0x8F1BBCDC)
    else (Z.lxor (Z.lxor b c) d, 0xCA62C1D6) in
  let temp := add32 (add32 (add32 (add32 (rotl32 5 a) f) e) k) w in
  (temp, a, rotl32 30 b, c, d).

Definition compress (h : state) (block : list Z) : state :=
  let w := rev (schedule 64 (rev (words block))) in
  let '(a, b, c, d, e) := fold_left round (combine (seq 0 80) w) h in
  let '(h0, h1, h2, h3, h4) := h in
  (add32 h0 a, add32 h1 b, add32 h2 c, add32 h3 d, add32 h4 e).

Definition init : state :=
  (0x67452301, 0xEFCDAB89, 0x98BADCFE, 0x10325476, 0xC3D2E1F0).

(** [hashlib.sha1(msg).digest()]: twenty bytes. *)
Definition digest (msg : list Z) : list Z :=
  let padded := pad msg in
  let '(h0, h1, h2, h3, h4) :=
    fold_left compress (blocks (length padded) padded) init in
  be_bytes 4 h0 ++ be_bytes 4 h1 ++ be_bytes 4 h2 ++ be_bytes 4 h3
    ++ be_bytes 4 h4.

End SHA1.

Definition hex_digit (n : Z) : ascii :=
  nth (Z.to_nat n) (list_ascii_of_string "0123456789abcdef") "0"%char.

(** [.hexdigest()]: two lower-case hexadecimal digits per byte. *)
Fixpoint hexlify (bs : list Z) : string :=
  match bs with
  | [] => ""
  | b :: bs' => String (hex_digit (b / 16)) (String (hex_digit (b mod 16)) (hexlify bs'))
  end.

Definition hexdigest (msg : list Z) : string := hexlify (SHA1.digest msg).

(** ** [int(s, 16)] on a string of hexadecimal digits *)

Definition digit16 (c : ascii) : option Z :=
  let n := Z.of_nat (nat_of_ascii c) in
  if (48 <=? n) && (n <=? 57) then Some (n - 48)
  else if (97 <=? n) && (n <=? 102) then Some (n - 87)
  else if (65 <=? n) && (n <=? 70) then Some (n - 55)
  else None.

Fixpoint int16_digits (acc : Z) (s : string) : result Z :=
  match s with
  | "" => Ok acc
  | String c s' =>
      match digit16 c with
      | Some d => int16_digits (acc * 16 + d) s'
      | None => Raise (ValueError "invalid literal for int() with base 16")
      end
  end.

(** Signs, prefixes, underscores and surrounding blanks, which [int] also
    accepts, do not occur in a hexdigest and raise here. *)
Definition int16 (s : string) : result Z :=
  match s with
  | "" => Raise (ValueError "invalid literal for int() with base 16")
  | _ => int16_digits 0 s
  end.

(** The digest read as one unsigned integer, most significant byte first. *)
Definition digest_int (bs : list Z) : Z :=
  fold_left (fun acc b => acc * 256 + b) bs 0.

(** [a % b] on integers: floored, as [Z.modulo]. *)
Definition py_mod (a b : Z) : result Z :=
  if b =? 0 then Raise (ZeroDivisionError "integer division or modulo by zero")
  else Ok (a mod b).

(** ** Identity bucketing (lines 135-136) *)

(** [1 + int(hashlib.sha1(user_id.encode("utf-8")).hexdigest(), 16) % train_users] *)
Definition Resolve (train_users : Z) (user_id : text) : result Z :=
  encoded ← encode_utf8 (code_points user_id);
  h ← int16 (hexdigest encoded);
  r ← py_mod h train_users;
  Ok (1 + r).

Definition text_abc : text := Text [97; 98; 99] eq_refl.
Definition text_empty : text := Text [] eq_refl.

(** ** Effects *)

Inductive level : Type := INFO | WARNING | ERROR.

Inductive interceptor : Type :=
  | OpenCensusServerInterceptor_default
  | OpenCensusServerInterceptor_with (sampler exporter : string).

(** What the process does to the outside, in order. *)
Inductive event : Type :=
  | Log (lvl : level) (msg : string)
  | Sleep (seconds : Z)
  | ProfilerStart (project_id : option string)
  | ExporterInit (project_id : option string)
  | DebuggerEnable
  | PrintExc
  | InsecureChannel (addr : string)
  | GrpcServer (max_workers : Z) (interceptors : list interceptor)
  | AddServicer (name : string)
  | AddInsecurePort (addr : string)
  | ServerStart
  | ServerStop (grace : Z).

(** A run: the effects performed, then the value returned or the exception
    that escaped. *)
Record prog (A : Type) : Type := Prog {
  events : list event;
  outcome : result A
}.
Arguments Prog {A} events outcome.
Arguments events {A} p.
Arguments outcome {A} p.

#[global] Instance prog_ret : MRet prog := fun A a => Prog [] (Ok a).
#[global] Instance prog_bind : MBind prog := fun A B f p =>
  match outcome p with
  | Ok a => Prog (events p ++ events (f a)) (outcome (f a))
  | Raise exc => Prog (events p) (Raise exc)
  end.

Definition emit (e : event) : prog unit := Prog [e] (Ok tt).
Definition lift {A : Type} (r : result A) : prog A := Prog [] r.
Definition raise {A : Type} (exc : exception) : prog A := Prog [] (Raise exc).

Definition logger_info (msg : string) : prog unit := emit (Log INFO msg).
Definition logger_warning (msg : string) : prog unit := emit (Log WARNING msg).
Definition logger_error (msg : string) : prog unit := emit (Log ERROR msg).
Definition time_sleep (seconds : Z) : prog unit := emit (Sleep seconds).

(** ** Module state (lines 54-91) *)

Definition TOP_K : Z := 10.

(** One row of the MovieLens frame, header [userID, itemID, rating].  The
    source compares [userID] with an integer; item ids are kept as strings,
    the type of the product ids of a response. *)
Record rating_row : Type := Row {
  userID : Z;
  itemID : string;
  rating : Q
}.

Definition frame : Type := list rating_row.

(** One row of what [compute_ranking_predictions] returns. *)
Record prediction : Type := Prediction {
  pred_userID : Z;
  pred_itemID : string;
  pred_prediction : Q
}.

(** What the handler reads from the module: the number of distinct users of
    the training partition, the held-out partition, the fitted model, and
    the function of [reco_utils] that scores a frame with it.  The model and
    the scoring function are outside the sources: the model is opaque, and
    the scoring call may return predictions or raise. *)
Record globals : Type := Globals {
  Model : Type;
  model : Model;
  train_users : Z;
  test : frame;
  compute_ranking_predictions : Model -> frame -> result (list prediction)
}.

(** [test[test['userID'] == user_id]] *)
Definition candidates (g : globals) (user_id : Z) : frame :=
  filter (fun r => userID r = user_id) (test g).

(** ** The recommendation handler (lines 126-152) *)

Record ListRecommendationsRequest : Type := Request {
  user_id : text;
  product_ids : list string
}.

Record ListRecommendationsResponse : Type := Response {
  response_product_ids : list string
}.

Definition prod_list : list string :=
  ["1YMWWN1N4O"; "L9ECAV7KIM"; "LS4PSXUNUM"; "9SIQT8TOJO"; "OLJCESPC7Z"].

(** [str(l)] for a list of strings that need no escaping. *)
Definition repr_str (s : string) : string := "'" +:+ s +:+ "'".
Definition repr_list (l : list string) : string :=
  "[" +:+ String.concat ", " (map repr_str l) +:+ "]".

Definition ListRecommendations (g : globals)
    (request : ListRecommendationsRequest) : prog ListRecommendationsResponse :=
  user_id ← lift (Resolve (train_users g) (user_id request));
  predictions ← lift (compute_ranking_predictions g (model g) (candidates g user_id));
  logger_info ("[Recv ListRecommendations] product_ids=" +:+ repr_list prod_list);;
  let response := Response [] in
  let response := Response (response_product_ids response ++ prod_list) in
  mret response.

(** The run that logs and returns the fixed list. *)
Definition fixed_run : prog ListRecommendationsResponse :=
  Prog [Log INFO ("[Recv ListRecommendations] product_ids=" +:+ repr_list prod_list)]
       (Ok (Response prod_list)).

(** The scoring call of line 138 returns for the user [u]. *)
Definition scoring_returns (g : globals) (u : Z) : Prop :=
  exists predictions,
    compute_ranking_predictions g (model g) (candidates g u) = Ok predictions.

(** ** The health handlers (lines 154-160) *)

(** Modelled from the spec: the status enumeration of the health response,
    [status: enum{SERVING, NOT_SERVING, UNKNOWN}]; the generated module
    [health_pb2] that declares it is not among the sources.  (The gRPC health
    protocol has a fourth member, SERVICE_UNKNOWN, and none called
    UNIMPLEMENTED either.) *)
Inductive ServingStatus : Type := UNKNOWN | SERVING | NOT_SERVING.

Record HealthCheckRequest : Type := { service : string }.
Record HealthCheckResponse : Type := { status : ServingStatus }.

(** [health_pb2.HealthCheckResponse.<name>]: the enumeration's members are
    the class attributes; any other name raises [AttributeError]. *)
Definition HealthCheckResponse_attr (name : string) : result ServingStatus :=
  if String.eqb name "UNKNOWN" then Ok UNKNOWN
  else if String.eqb name "SERVING" then Ok SERVING
  else if String.eqb name "NOT_SERVING" then Ok NOT_SERVING
  else Raise (AttributeError
    ("type object 'HealthCheckResponse' has no attribute '" +:+ name +:+ "'")).

Definition Check (request : HealthCheckRequest) : result HealthCheckResponse :=
  s ← HealthCheckResponse_attr "SERVING";
  Ok {| status := s |}.

Definition Watch (request : HealthCheckRequest) : result HealthCheckResponse :=
  s ← HealthCheckResponse_attr "UNIMPLEMENTED";
  Ok {| status := s |}.

(** ** Start-up (lines 94-122 and 163-235) *)

(** The outcomes of the calls that the start-up sequence guards with
    [try]/[except]: [googlecloudprofiler.start] at each attempt, the
    construction of the Stackdriver exporter, [googleclouddebugger.enable];
    and the number of keep-alive sleeps that complete before the interrupt. *)
Record agents : Type := Agents {
  googlecloudprofiler_start : Z -> option string -> result unit;
  StackdriverExporter : option string -> result unit;
  googleclouddebugger_enable : result unit;
  interrupt_after : nat
}.

(** [range(lo, hi)] *)
Definition py_range (lo hi : Z) : list Z :=
  (fun i => lo + Z.of_nat i) <$> seq 0 (Z.to_nat (hi - lo)).

(** [key in os.environ] *)
Definition in_environ (key : string) (environ : gmap string string) : bool :=
  match environ !! key with Some _ => true | None => false end.

(** [try: body / except <classes>: handler]; [handles] is the [isinstance]
    test of the clause. *)
Definition try_except {A : Type} (body : prog A) (handles : exception -> bool)
    (handler : exception -> prog A) : prog A :=
  match outcome body with
  | Ok _ => body
  | Raise exc =>
      if handles exc
      then Prog (events body ++ events (handler exc)) (outcome (handler exc))
      else body
  end.

Definition is_KeyError (exc : exception) : bool :=
  match exc with KeyError _ => true | _ => false end.

(** The [project_id] keyword that [googlecloudprofiler.start] gets:
    [if project_id:] is false for [None] and for the empty string, and the
    call is then made without it. *)
Definition passed_project_id (project_id : option string) : option string :=
  match project_id with
  | Some p => if String.eqb p "" then None else Some p
  | None => None
  end.

(** The body of [for retry in range(1, 4)]; a started profiler returns from
    the function, which ends the loop. *)
Fixpoint profiling_loop (a : agents) (project_id : option string)
    (retries : list Z) : prog unit :=
  match retries with
  | [] => mret tt
  | retry :: retries' =>
      let arg := passed_project_id project_id in
      emit (ProfilerStart arg);;
      match googlecloudprofiler_start a retry arg with
      | Ok _ => logger_info "Successfully started Stackdriver Profiler."
      | Raise exc =>
          logger_info ("Unable to start Stackdriver Profiler Python agent. "
                       +:+ str_exc exc);;
          (if retry <? 4 then
             logger_info ("Sleeping " +:+ pretty (retry * 10)
               +:+ " seconds to retry Stackdriver Profiler agent initialization");;
             time_sleep 1
           else
             logger_warning
               "Could not initialize Stackdriver Profiler after retrying, giving up");;
          profiling_loop a project_id retries'
      end
  end.

Definition initStackdriverProfiling (a : agents)
    (environ : gmap string string) : prog unit :=
  let project_id := environ !! "GCP_PROJECT_ID" in
  profiling_loop a project_id (py_range 1 4).

(** [while True: time.sleep(10000)] until [KeyboardInterrupt], then
    [server.stop(0)].  A run that is never interrupted has no end and is not
    a value of [prog]; its effects are the sleeps of every finite prefix. *)
Definition keep_alive (sleeps : nat) : prog unit :=
  Prog (replicate sleeps (Sleep 10000) ++ [ServerStop 0]) (Ok tt).

(** Lines 166-173. *)
Definition main_profiler (a : agents) (environ : gmap string string) : prog unit :=
  try_except
    (if in_environ "DISABLE_PROFILER" environ then raise (KeyError "")
     else logger_info "Profiler enabled.";;
          initStackdriverProfiling a environ)
    is_KeyError
    (fun _ => logger_info "Profiler disabled.").

(** Lines 175-188; the value is [tracer_interceptor]. *)
Definition main_tracing (a : agents) (environ : gmap string string)
    : prog interceptor :=
  try_except
    (if in_environ "DISABLE_TRACING" environ then raise (KeyError "")
     else logger_info "Tracing enabled.";;
          emit (ExporterInit (environ !! "GCP_PROJECT_ID"));;
          lift (StackdriverExporter a (environ !! "GCP_PROJECT_ID"));;
          mret (OpenCensusServerInterceptor_with "AlwaysOnSampler"
                  "StackdriverExporter"))
    is_KeyError_or_DefaultCredentialsError
    (fun _ => logger_info "Tracing disabled.";;
              mret OpenCensusServerInterceptor_default).

(** Lines 190-205.  [traceback.print_exc()] prints and returns [None], which
    is what the second [logger.error] logs. *)
Definition main_debugger (a : agents) (environ : gmap string string) : prog unit :=
  try_except
    (if in_environ "DISABLE_DEBUGGER" environ then raise (KeyError "")
     else logger_info "Debugger enabled.";;
          try_except
            (emit DebuggerEnable;; lift (googleclouddebugger_enable a))
            is_Exception
            (fun _ => logger_error "Could not enable debugger";;
                      emit PrintExc;;
                      logger_error "None"))
    is_Exception
    (fun _ => logger_info "Debugger disabled.").

Definition configuration_error : exception :=
  Exception "PRODUCT_CATALOG_SERVICE_ADDR environment variable not set".

(** Lines 207-235.  The calls into gRPC are recorded as effects; a failure
    of their own (a port that cannot be bound) is not modelled. *)
Definition main_server (a : agents) (environ : gmap string string)
    (tracer_interceptor : interceptor) : prog unit :=
  let port := default "8080" (environ !! "PORT") in
  let catalog_addr := default "" (environ !! "PRODUCT_CATALOG_SERVICE_ADDR") in
  (if String.eqb catalog_addr ""
   then raise configuration_error
   else mret tt);;
  logger_info ("product catalog address: " +:+ catalog_addr);;
  emit (InsecureChannel catalog_addr);;
  emit (GrpcServer 10 [tracer_interceptor]);;
  emit (AddServicer "RecommendationService");;
  emit (AddServicer "Health");;
  logger_info ("listening on port: " +:+ port);;
  emit (AddInsecurePort ("[::]:" +:+ port));;
  emit ServerStart;;
  keep_alive (interrupt_after a).

(** What [__main__] does once the profiler block is over. *)
Definition after_profiler (a : agents) (environ : gmap string string) : prog unit :=
  tracer_interceptor ← main_tracing a environ;
  main_debugger a environ;;
  main_server a environ tracer_interceptor.

(** The [__main__] block. *)
Definition main (a : agents) (environ : gmap string string) : prog unit :=
  logger_info "initializing recommendationservice";;
  main_profiler a environ;;
  after_profiler a environ.

(** No exception leaves the tracing block or the debugger block: the
    exporter raises nothing but what line 186 catches, and the debugger
    nothing outside [Exception]. *)
Definition optional_init_contained (a : agents)
    (environ : gmap string string) : Prop :=
  (in_environ "DISABLE_TRACING" environ = false ->
   forall exc, StackdriverExporter a (environ !! "GCP_PROJECT_ID") = Raise exc ->
     is_KeyError_or_DefaultCredentialsError exc = true) /\
  (in_environ "DISABLE_DEBUGGER" environ = false ->
   forall exc, googleclouddebugger_enable a = Raise exc ->
     is_Exception exc = true).

Definition is_listener (e : event) : bool :=
  match e with AddInsecurePort _ | ServerStart => true | _ => false end.

(** The listener is bound or started somewhere in the run. *)
Definition opens_listener (evs : list event) : Prop :=
  exists e, e ∈ evs /\ is_listener e = true.

Definition is_ProfilerStart (e : event) : bool :=
  match e with ProfilerStart _ => true | _ => false end.

(** How many times the run calls [googlecloudprofiler.start]. *)
Definition attempts (evs : list event) : nat :=
  length (List.filter is_ProfilerStart evs).

(** The attempt [retry] takes place: every earlier one has failed. *)
Definition attempted (a : agents) (arg : option string) (retry : Z) : Prop :=
  forall r, 1 <= r < retry ->
    exists exc, googlecloudprofiler_start a r arg = Raise exc.

(** What a failed attempt leaves in the run (lines 113-118): the call, the
    exception's message, the announcement of a sleep of [retry * 10]
    seconds, and a sleep of one second. *)
Definition failed_attempt (arg : option string) (retry : Z) (exc : exception)
    : list event :=
  [ ProfilerStart arg;
    Log INFO ("Unable to start Stackdriver Profiler Python agent. " +:+ str_exc exc);
    Log INFO ("Sleeping " +:+ pretty (retry * 10)
              +:+ " seconds to retry Stackdriver Profiler agent initialization");
    Sleep 1 ].

(** [b] is [a] with other outcomes of the profiler agent. *)
Definition same_but_profiler (a b : agents) : Prop :=
  StackdriverExporter a = StackdriverExporter b /\
  googleclouddebugger_enable a = googleclouddebugger_enable b /\
  interrupt_after a = interrupt_after b.

(** ** The ranking that the specification describes *)

(** Descending by score, ties by ascending item id. *)
Definition ranks_before (p q : prediction) : bool :=
  match Qcompare (pred_prediction p) (pred_prediction q) with
  | Gt => true
  | Lt => false
  | Eq => String.leb (pred_itemID p) (pred_itemID q)
  end.

Fixpoint insert_ranked (p : prediction) (l : list prediction) : list prediction :=
  match l with
  | [] => [p]
  | q :: l' => if ranks_before p q then p :: l else q :: insert_ranked p l'
  end.

Definition sort_ranked (l : list prediction) : list prediction :=
  foldr insert_ranked [] l.

(** The specification's result for a scored candidate set: the item ids in
    rank order, cut to the first K. *)
Definition spec_top_k (predictions : list prediction) : list string :=
  take (Z.to_nat TOP_K) (pred_itemID <$> sort_ranked predictions).

(** ** A small deployment for examples *)

(** [Series.unique()]: the distinct values, in order of first occurrence. *)
Fixpoint unique_from {A : Type} `{EqDecision A} (seen l : list A) : list A :=
  match l with
  | [] => []
  | x :: l' =>
      if bool_decide (x ∈ seen) then unique_from seen l'
      else x :: unique_from (x :: seen) l'
  end.

Definition unique {A : Type} `{EqDecision A} (l : list A) : list A :=
  unique_from [] l.

(** A scorer that returns one prediction for every pair of a user and an
    item of the frame, in order of first occurrence. *)
Definition score_all_pairs (est : Z -> string -> Q) (data : frame)
    : result (list prediction) :=
  Ok (u ← unique (userID <$> data);
      i ← unique (itemID <$> data);
      [Prediction u i (est u i)]).

Definition demo_est (u : Z) (i : string) : Q :=
  if String.eqb i "302" then (9 # 2)%Q else (7 # 2)%Q.

(** Five users; the held-out partition has rows for users 2, 3 and 5. *)
Definition demo : globals := {|
  Model := Z -> string -> Q;
  model := demo_est;
  train_users := 5;
  test := [ Row 2 "51" (2 # 1); Row 3 "242" (3 # 1); Row 3 "302" (4 # 1);
            Row 5 "346" (1 # 1) ];
  compute_ranking_predictions := score_all_pairs
|}.

(** The same deployment with a scoring call that raises. *)
Definition demo_failing : globals := {|
  Model := unit;
  model := tt;
  train_users := 5;
  test := test demo;
  compute_ranking_predictions := fun _ _ => Raise (ValueError "malformed candidate set")
|}.

Definition demo_agents : agents := {|
  googlecloudprofiler_start := fun retry _ =>
    if retry <? 3 then Raise (Exception "no credentials") else Ok tt;
  StackdriverExporter := fun _ => Raise (DefaultCredentialsError "no credentials");
  googleclouddebugger_enable := Ok tt;
  interrupt_after := 2
|}.

Definition failing_agents : agents := {|
  googlecloudprofiler_start := fun _ _ => Raise (BaseException "interrupted");
  StackdriverExporter := fun _ => Ok tt;
  googleclouddebugger_enable := Raise (Exception "not on GCE");
  interrupt_after := 0
|}.

Definition demo_environ : gmap string string :=
  {[ "PORT" := "9090"; "PRODUCT_CATALOG_SERVICE_ADDR" := "productcatalogservice:3550" ]}.

Definition request_abc : ListRecommendationsRequest :=
  Request text_abc ["1YMWWN1N4O"].

Definition request_empty : ListRecommendationsRequest :=
  Request text_empty [].


(** ** Statements of the specification that the handler does not satisfy *)

(** A user without candidates gets the fixed list, and never an error. *)
Definition empty_candidates_never_fail : Prop :=
  forall (g : globals) (request : ListRecommendationsRequest) (u : Z),
    Resolve (train_users g) (user_id request) = Ok u ->
    candidates g u = [] ->
    outcome (ListRecommendations g request) = Ok (Response prod_list).

(** A user with candidates gets the scored candidates in rank order, cut to
    K entries. *)
Definition returns_ranked_candidates : Prop :=
  forall (g : globals) (request : ListRecommendationsRequest) (u : Z)
         (predictions : list prediction),
    Resolve (train_users g) (user_id request) = Ok u ->
    candidates g u <> [] ->
    compute_ranking_predictions g (model g) (candidates g u) = Ok predictions ->
    outcome (ListRecommendations g request) = Ok (Response (spec_top_k predictions)).

(** No item id of the request's [product_ids] is in the response. *)
Definition removes_excluded : Prop :=
  forall (g : globals) (request : ListRecommendationsRequest)
         (response : ListRecommendationsResponse),
    outcome (ListRecommendations g request) = Ok response ->
    forall i, i ∈ product_ids request -> i ∉ response_product_ids response.

(** ** Shapes of the start-up effects *)

(** The seconds slept in a run. *)
Definition total_sleep (evs : list event) : Z :=
  foldr (fun e acc => match e with Sleep seconds => seconds + acc | _ => acc end)
        0 evs.

Definition profiler_started : event :=
  Log INFO "Successfully started Stackdriver Profiler.".

(** What the profiler block may do: log at INFO level, sleep one second,
    call the agent with the project id that passes the truth test. *)
Definition profiler_event (environ : gmap string string) (e : event) : Prop :=
  match e with
  | Log INFO _ => True
  | Sleep seconds => seconds = 1
  | ProfilerStart p => p = passed_project_id (environ !! "GCP_PROJECT_ID")
  | _ => False
  end.

(** What the tracing block may do: log at INFO level, construct the exporter
    with the project id as the environment has it. *)
Definition tracing_event (environ : gmap string string) (e : event) : Prop :=
  match e with
  | Log INFO _ => True
  | ExporterInit p => p = environ !! "GCP_PROJECT_ID"
  | _ => False
  end.

(** What the debugger block may do. *)
Definition debugger_event (e : event) : Prop :=
  match e with
  | Log INFO _ | Log ERROR _ | DebuggerEnable | PrintExc => True
  | _ => False
  end.

(** [catalog_addr] and [port] of lines 207-208. *)
Definition catalog_addr (environ : gmap string string) : string :=
  default "" (environ !! "PRODUCT_CATALOG_SERVICE_ADDR").

Definition port (environ : gmap string string) : string :=
  default "8080" (environ !! "PORT").

(** The effects of lines 212-235 once the address has passed the test. *)
Definition serving_events (a : agents) (environ : gmap string string)
    (tracer_interceptor : interceptor) : list event :=
  [ Log INFO ("product catalog address: " +:+ catalog_addr environ);
    InsecureChannel (catalog_addr environ);
    GrpcServer 10 [tracer_interceptor];
    AddServicer "RecommendationService";
    AddServicer "Health";
    Log INFO ("listening on port: " +:+ port environ);
    AddInsecurePort ("[::]:" +:+ port environ);
    ServerStart ]
  ++ replicate (interrupt_after a) (Sleep 10000) ++ [ServerStop 0].

(** The exporter raises something that line 186 catches. *)
Definition exporter_unavailable (a : agents) (environ : gmap string string) : Prop :=
  exists exc,
    StackdriverExporter a (environ !! "GCP_PROJECT_ID") = Raise exc /\
    is_KeyError_or_DefaultCredentialsError exc = true.

(** A deployment without users. *)
Definition demo_no_users : globals := {|
  Model := unit;
  model := tt;
  train_users := 0;
  test := test demo;
  compute_ranking_predictions := fun _ _ => Ok []
|}.

(** An exporter that fails with something else than missing credentials. *)
Definition broken_exporter_agents : agents := {|
  googlecloudprofiler_start := fun _ _ => Ok tt;
  StackdriverExporter := fun _ => Raise (ValueError "bad transport");
  googleclouddebugger_enable := Ok tt;
  interrupt_after := 0
|}.

Definition disabled_environ : gmap string string :=
  {[ "DISABLE_PROFILER" := "0"; "DISABLE_TRACING" := "false";
     "DISABLE_DEBUGGER" := "";
     "PRODUCT_CATALOG_SERVICE_ADDR" := "productcatalogservice:3550" ]}.

Definition empty_addr_environ : gmap string string :=
  {[ "PRODUCT_CATALOG_SERVICE_ADDR" := ""; "GCP_PROJECT_ID" := "" ]}.

(** ** Hash objects and successive invocations *)

(** A hash object holds the bytes fed to it so far; the heap lists the hash
    objects of the process by address. *)
Definition heap : Type := list (list Z).

(** [hashlib.sha1(data)]: a new object, fed with [data]. *)
Definition hashlib_sha1 (data : list Z) (h : heap) : heap * nat :=
  (h ++ [data], length h).

(** [obj.update(data)]: the object is changed in place.  Line 135 does not
    call it. *)
Definition sha1_update (addr : nat) (data : list Z) (h : heap) : heap :=
  alter (fun fed => fed ++ data) addr h.

(** [obj.hexdigest()]: the digest of what the object was fed; the object is
    left as it is. *)
Definition sha1_hexdigest (addr : nat) (h : heap) : result string :=
  match h !! addr with
  | Some fed => Ok (hexdigest fed)
  | None => Raise (Exception "no such hash object")
  end.

(** The state that one invocation finds and leaves: the module state and
    the hash objects made so far. *)
Record process : Type := Process {
  proc_globals : globals;
  proc_heap : heap
}.

(** Lines 135-136 run in a process: the token is encoded, a new hash object
    is made from the bytes and read once; [train_users] is read and no
    module variable is assigned. *)
Definition Resolve_in (p : process) (token : text) : process * result Z :=
  match encode_utf8 (code_points token) with
  | Raise exc => (p, Raise exc)
  | Ok encoded =>
      let '(h, addr) := hashlib_sha1 encoded (proc_heap p) in
      (Process (proc_globals p) h,
       digest ← sha1_hexdigest addr h;
       n ← int16 digest;
       r ← py_mod n (train_users (proc_globals p));
       Ok (1 + r))
  end.

(** The users resolved by successive invocations, each one run in the
    process as the one before has left it. *)
Fixpoint resolutions (p : process)
    (requests : list ListRecommendationsRequest) : list (result Z) :=
  match requests with
  | [] => []
  | request :: requests' =>
      let '(p', user) := Resolve_in p (user_id request) in
      user :: resolutions p' requests'
  end.

(** * Properties *)

(** ** The runtime functions *)

Example sha1_abc :
  hexdigest [97; 98; 99] = "a9993e364706816aba3e25717850c26c9cd0d89d".
Proof. vm_compute. reflexivity. Qed.

Example sha1_empty :
  hexdigest [] = "da39a3ee5e6b4b0d3255bfef95601890afd80709".
Proof. vm_compute. reflexivity. Qed.

Example sha1_two_blocks :
  hexdigest (replicate 64 97) = "0098ba824b5c16427bd7a1122a5a442a25ec644d".
Proof. vm_compute. reflexivity. Qed.

(** Padding at the block boundary: 55, 56 and 119 bytes. *)
Example sha1_padding :
  hexdigest ((fun i => Z.of_nat i) <$> seq 0 55)
    = "8ae2d46729cfe68ff927af5eec9c7d1b66d65ac2" /\
  hexdigest ((fun i => Z.of_nat i) <$> seq 0 56)
    = "636e2ec698dac903498e648bd2f3af641d3c88cb" /\
  hexdigest ((fun i => Z.of_nat i) <$> seq 0 119)
    = "41c89d06001bab4ab78736b44efe7ce18ce6ae08".
Proof. repeat split; vm_compute; reflexivity. Qed.

(** One, two, three and four bytes: "h", e acute, the euro sign, U+1F600. *)
Example encode_utf8_widths :
  encode_utf8 [104; 233; 8364; 128512]
    = Ok [104; 195; 169; 226; 130; 172; 240; 159; 152; 128].
Proof. vm_compute. reflexivity. Qed.

Example encode_utf8_surrogate :
  encode_utf8 [0xD800] = Raise (UnicodeEncodeError "surrogates not allowed").
Proof. vm_compute. reflexivity. Qed.

Lemma encode_code_point_scalar (cp : Z) :
  is_scalar cp = true -> exists b, encode_code_point cp = Ok b.
Proof.
  unfold is_scalar, encode_code_point. intros H.
  apply andb_prop in H as [H Hs]. apply andb_prop in H as [H0 H1].
  apply Z.leb_le in H0, H1.
  destruct (cp <? 0) eqn:E0; [apply Z.ltb_lt in E0; lia|].
  destruct (cp <? 128); [eauto|].
  destruct (cp <? 2048); [eauto|].
  destruct (cp <? 65536).
  - apply negb_true_iff in Hs. rewrite Hs. eauto.
  - destruct (cp <=? 1114111) eqn:E; [eauto|]. apply Z.leb_gt in E. lia.
Qed.

Lemma encode_utf8_scalars (s : list Z) :
  forallb is_scalar s = true -> exists bs, encode_utf8 s = Ok bs.
Proof.
  induction s as [|cp s IH]; simpl; intros H; [eauto|].
  apply andb_prop in H as [Hcp Hs].
  destruct (encode_code_point_scalar cp Hcp) as [b ->].
  destruct (IH Hs) as [bs ->]. simpl. eauto.
Qed.

Lemma encode_utf8_text (t : text) : exists bs, encode_utf8 (code_points t) = Ok bs.
Proof. apply encode_utf8_scalars, text_scalar. Qed.

Lemma lor_is_byte (x y : Z) : is_byte x -> is_byte y -> is_byte (Z.lor x y).
Proof.
  unfold is_byte. intros Hx Hy. split; [apply Z.lor_nonneg; lia|].
  destruct (Z.eq_dec (Z.lor x y) 0) as [->|Hne]; [lia|].
  assert (0 <= Z.lor x y) as Hnn by (apply Z.lor_nonneg; lia).
  change 256 with (2 ^ 8). apply Z.log2_lt_pow2; [lia|].
  rewrite Z.log2_lor by lia.
  assert (Z.log2 x < 8) as Lx.
  { destruct (Z.eq_dec x 0) as [->|]; [reflexivity|]. apply Z.log2_lt_pow2; lia. }
  assert (Z.log2 y < 8) as Ly.
  { destruct (Z.eq_dec y 0) as [->|]; [reflexivity|]. apply Z.log2_lt_pow2; lia. }
  lia.
Qed.

Lemma land_63_is_byte (x : Z) : is_byte (Z.land x 0x3F).
Proof.
  unfold is_byte. change 0x3F with (Z.ones 6). rewrite Z.land_ones by lia.
  pose proof (Z.mod_pos_bound x (2 ^ 6)). lia.
Qed.

Lemma shiftr_is_byte (cp n bound : Z) :
  0 <= cp < bound -> 0 <= n -> bound <= 256 * 2 ^ n -> is_byte (Z.shiftr cp n).
Proof.
  unfold is_byte. intros Hcp Hn Hb. rewrite Z.shiftr_div_pow2 by lia.
  assert (0 < 2 ^ n) by (apply Z.pow_pos_nonneg; lia).
  split; [apply Z.div_pos; lia | apply Z.div_lt_upper_bound; lia].
Qed.

Lemma encode_code_point_is_byte (cp : Z) (b : list Z) :
  encode_code_point cp = Ok b -> Forall is_byte b.
Proof.
  unfold encode_code_point.
  destruct (cp <? 0) eqn:E0; [discriminate|]. apply Z.ltb_ge in E0.
  destruct (cp <? 128) eqn:E1.
  { apply Z.ltb_lt in E1. intros [= <-]. repeat constructor; lia. }
  destruct (cp <? 2048) eqn:E2.
  { apply Z.ltb_lt in E2. intros [= <-].
    repeat constructor; apply lor_is_byte;
      first [ apply land_63_is_byte
            | apply (shiftr_is_byte cp _ 2048); lia
            | unfold is_byte; lia ]. }
  destruct (cp <? 65536) eqn:E3.
  { apply Z.ltb_lt in E3. destruct (_ && _); [discriminate|]. intros [= <-].
    repeat constructor; apply lor_is_byte;
      first [ apply land_63_is_byte
            | apply (shiftr_is_byte cp _ 65536); lia
            | unfold is_byte; lia ]. }
  destruct (cp <=? 1114111) eqn:E4; [|discriminate].
  apply Z.leb_le in E4. intros [= <-].
  repeat constructor; apply lor_is_byte;
    first [ apply land_63_is_byte
          | apply (shiftr_is_byte cp _ 1114112); lia
          | unfold is_byte; lia ].
Qed.

(** What [encode] returns is a [bytes] value. *)
Lemma encode_utf8_is_byte (s bs : list Z) :
  encode_utf8 s = Ok bs -> Forall is_byte bs.
Proof.
  revert bs. induction s as [|cp s IH]; simpl; intros bs.
  - intros [= <-]. constructor.
  - destruct (encode_code_point cp) as [b|] eqn:Eb; [|discriminate].
    destruct (encode_utf8 s) as [bs'|]; [|discriminate]. simpl.
    intros [= <-]. apply Forall_app. split.
    + exact (encode_code_point_is_byte cp b Eb).
    + apply IH. reflexivity.
Qed.

Lemma be_bytes_is_byte (n : nat) (x : Z) : Forall is_byte (SHA1.be_bytes n x).
Proof.
  induction n as [|n IH]; simpl; constructor; [|exact IH].
  unfold is_byte. apply Z.mod_pos_bound. lia.
Qed.

Lemma digest_is_byte (msg : list Z) : Forall is_byte (SHA1.digest msg).
Proof.
  unfold SHA1.digest.
  destruct (fold_left _ _ _) as [[[[h0 h1] h2] h3] h4].
  repeat (apply Forall_app; split); apply be_bytes_is_byte.
Qed.

Lemma digest_length (msg : list Z) : length (SHA1.digest msg) = 20%nat.
Proof.
  unfold SHA1.digest.
  destruct (fold_left _ _ _) as [[[[h0 h1] h2] h3] h4]. reflexivity.
Qed.

Lemma digit16_hex_digit_nat (k : nat) :
  (k < 16)%nat -> digit16 (hex_digit (Z.of_nat k)) = Some (Z.of_nat k).
Proof. intros Hk. do 16 (destruct k as [|k]; [reflexivity|]). lia. Qed.

Lemma digit16_hex_digit (n : Z) : 0 <= n < 16 -> digit16 (hex_digit n) = Some n.
Proof.
  intros H. rewrite <- (Z2Nat.id n) by lia. apply digit16_hex_digit_nat. lia.
Qed.

Lemma int16_digits_hexlify (bs : list Z) (acc : Z) :
  Forall is_byte bs ->
  int16_digits acc (hexlify bs) = Ok (fold_left (fun a b => a * 256 + b) bs acc).
Proof.
  intros H. revert acc. induction H as [|b bs Hb _ IH]; intros acc; [reflexivity|].
  unfold is_byte in Hb. cbn [hexlify int16_digits fold_left].
  rewrite digit16_hex_digit by (split; [apply Z.div_pos; lia | apply Z.div_lt_upper_bound; lia]).
  rewrite digit16_hex_digit by (apply Z.mod_pos_bound; lia).
  rewrite IH. do 2 f_equal.
  pose proof (Z.div_mod b 16). lia.
Qed.

(** [int(h.hexdigest(), 16)] never raises and is the digest read as a
    big-endian unsigned integer. *)
Lemma int16_hexdigest (msg : list Z) :
  int16 (hexdigest msg) = Ok (digest_int (SHA1.digest msg)).
Proof.
  unfold hexdigest, digest_int.
  pose proof (digest_is_byte msg) as Hb. pose proof (digest_length msg) as Hl.
  destruct (SHA1.digest msg) as [|b bs]; [discriminate|].
  rewrite <- int16_digits_hexlify by exact Hb. reflexivity.
Qed.

Lemma fold_bytes_nonneg (bs : list Z) (acc : Z) :
  Forall is_byte bs -> 0 <= acc -> 0 <= fold_left (fun a b => a * 256 + b) bs acc.
Proof.
  intros H. revert acc. induction H as [|b bs Hb _ IH]; intros acc Hacc; [exact Hacc|].
  simpl. apply IH. unfold is_byte in Hb. lia.
Qed.

Lemma digest_int_nonneg (msg : list Z) : 0 <= digest_int (SHA1.digest msg).
Proof. apply fold_bytes_nonneg; [apply digest_is_byte | lia]. Qed.

(** ** Identity bucketing *)

(** Lines 135-136 unfolded: the only exception that can leave them is the
    division by zero of an empty user universe. *)
Lemma Resolve_unfold (N : Z) (token : text) :
  exists bs, encode_utf8 (code_points token) = Ok bs /\
    Resolve N token =
      if N =? 0 then Raise (ZeroDivisionError "integer division or modulo by zero")
      else Ok (1 + digest_int (SHA1.digest bs) mod N).
Proof.
  destruct (encode_utf8_text token) as [bs Hbs]. exists bs. split; [exact Hbs|].
  unfold Resolve. rewrite Hbs. cbn [mbind result_bind].
  rewrite int16_hexdigest. cbn [mbind result_bind]. unfold py_mod.
  destruct (N =? 0); reflexivity.
Qed.

Lemma Resolve_total (N : Z) (token : text) :
  0 < N -> exists u, Resolve N token = Ok u /\ 1 <= u <= N.
Proof.
  intros HN. destruct (Resolve_unfold N token) as (bs & _ & HR).
  assert ((N =? 0) = false) as E by (apply Z.eqb_neq; lia).
  rewrite E in HR. eexists. split; [exact HR|].
  pose proof (Z.mod_pos_bound (digest_int (SHA1.digest bs)) N HN). lia.
Qed.

(** E2E scenario 1 of the specification: token "abc" among five users. *)
Example Resolve_abc_5 : Resolve 5 text_abc = Ok 3.
Proof. vm_compute. reflexivity. Qed.

Example Resolve_empty_5 : Resolve 5 text_empty = Ok 1.
Proof. vm_compute. reflexivity. Qed.

Example Resolve_abc_movielens : Resolve 943 text_abc = Ok 579.
Proof. vm_compute. reflexivity. Qed.

Example Resolve_non_ascii :
  forall H, Resolve 943 (Text [104; 233; 108; 108; 111; 32; 8364; 128512] H) = Ok 625.
Proof. intros H. vm_compute. reflexivity. Qed.

Example Resolve_no_users :
  Resolve 0 text_abc = Raise (ZeroDivisionError "integer division or modulo by zero").
Proof. vm_compute. reflexivity. Qed.

(** C3: for every token, the empty one included, and every non-empty user
    universe of size N, Resolve returns (it raises nothing) and its value is
    1 + (the SHA-1 digest of the token's UTF-8 encoding, read as a big-endian
    unsigned integer, modulo N), which lies between 1 and N. *)
Theorem Resolve_spec (N : Z) (token : text) :
  0 < N ->
  exists bs,
    encode_utf8 (code_points token) = Ok bs /\
    Resolve N token = Ok (1 + digest_int (SHA1.digest bs) mod N) /\
    0 <= digest_int (SHA1.digest bs) /\
    1 <= 1 + digest_int (SHA1.digest bs) mod N <= N.
Proof.
  intros HN. destruct (Resolve_unfold N token) as (bs & Hbs & HR).
  exists bs. split; [exact Hbs|].
  assert ((N =? 0) = false) as E by (apply Z.eqb_neq; lia).
  rewrite E in HR. split; [exact HR|]. split; [apply digest_int_nonneg|].
  pose proof (Z.mod_pos_bound (digest_int (SHA1.digest bs)) N HN). lia.
Qed.

Lemma Resolve_spec_witness :
  0 < 5 /\
  exists bs,
    encode_utf8 (code_points text_empty) = Ok bs /\
    Resolve 5 text_empty = Ok (1 + digest_int (SHA1.digest bs) mod 5) /\
    0 <= digest_int (SHA1.digest bs) /\
    1 <= 1 + digest_int (SHA1.digest bs) mod 5 <= 5.
Proof. split; [lia | apply (Resolve_spec 5 text_empty); lia]. Defined.

(** A new hash object is read back as it was fed, whatever the heap held. *)
Lemma sha1_hexdigest_new (data : list Z) (h : heap) :
  sha1_hexdigest (snd (hashlib_sha1 data h)) (fst (hashlib_sha1 data h))
    = Ok (hexdigest data).
Proof.
  unfold sha1_hexdigest, hashlib_sha1, heap in *. cbn [fst snd].
  assert ((h ++ [data]) !! length h = Some data) as ->
    by (apply list_lookup_middle; reflexivity).
  reflexivity.
Qed.

(** An object that is fed again gives another digest: what is hashed in one
    invocation must not reach the object of the next. *)
Example sha1_update_changes_digest :
  sha1_hexdigest 0 (sha1_update 0 [98] (fst (hashlib_sha1 [97] [])))
    = Ok (hexdigest [97; 98]) /\
  hexdigest [97; 98] <> hexdigest [97].
Proof. split; [reflexivity | vm_compute; discriminate]. Qed.

(** An invocation computes what [Resolve] describes and leaves the module
    state as it was. *)
Lemma Resolve_in_spec (p : process) (token : text) :
  snd (Resolve_in p token) = Resolve (train_users (proc_globals p)) token /\
  proc_globals (fst (Resolve_in p token)) = proc_globals p.
Proof.
  unfold Resolve_in, Resolve.
  destruct (encode_utf8 (code_points token)) as [encoded|exc]; [|split; reflexivity].
  pose proof (sha1_hexdigest_new encoded (proc_heap p)) as Hd.
  destruct (hashlib_sha1 encoded (proc_heap p)) as [h addr]. cbn [fst snd] in *.
  rewrite Hd. split; reflexivity.
Qed.

Lemma resolutions_spec (p : process) (requests : list ListRecommendationsRequest) :
  resolutions p requests
    = (fun request => Resolve (train_users (proc_globals p)) (user_id request))
        <$> requests.
Proof.
  revert p. induction requests as [|request requests IH]; intros p; [reflexivity|].
  cbn [resolutions fmap list_fmap].
  destruct (Resolve_in_spec p (user_id request)) as [Hu Hg].
  destruct (Resolve_in p (user_id request)) as [p' user]. cbn [fst snd] in *.
  rewrite IH, Hg, Hu. reflexivity.
Qed.

Lemma Resolve_code_points (N : Z) (s1 s2 : text) :
  code_points s1 = code_points s2 -> Resolve N s1 = Resolve N s2.
Proof. intros H. unfold Resolve. rewrite H. reflexivity. Qed.

(** C8: whenever two invocations have equal tokens, they resolve to the same
    user, for a given number N of users.  The invocations may be any two of
    one run of the server, or belong to two processes with the same N;
    whatever was hashed before them, in whatever order the requests came:
    each invocation makes its own hash object, the digest takes no salt,
    and no invocation changes [train_users]. *)
Theorem Resolve_deterministic_across_invocations (p1 p2 : process)
    (requests1 requests2 : list ListRecommendationsRequest) (i j : nat)
    (r1 r2 : ListRecommendationsRequest) :
  train_users (proc_globals p1) = train_users (proc_globals p2) ->
  requests1 !! i = Some r1 ->
  requests2 !! j = Some r2 ->
  code_points (user_id r1) = code_points (user_id r2) ->
  exists user,
    resolutions p1 requests1 !! i = Some user /\
    resolutions p2 requests2 !! j = Some user.
Proof.
  intros HN H1 H2 Ht.
  exists (Resolve (train_users (proc_globals p1)) (user_id r1)).
  rewrite !resolutions_spec, !list_lookup_fmap, H1, H2. cbn.
  rewrite HN, (Resolve_code_points _ _ _ Ht). split; reflexivity.
Qed.

Lemma Resolve_deterministic_across_invocations_witness :
  train_users (proc_globals (Process demo []))
    = train_users (proc_globals (Process demo_failing [[1; 2; 3]])) /\
  [request_empty; request_abc] !! 1%nat = Some request_abc /\
  [Request text_abc []; request_empty] !! 0%nat = Some (Request text_abc []) /\
  code_points (user_id request_abc) = code_points (user_id (Request text_abc [])) /\
  exists user,
    resolutions (Process demo []) [request_empty; request_abc] !! 1%nat
      = Some user /\
    resolutions (Process demo_failing [[1; 2; 3]])
        [Request text_abc []; request_empty] !! 0%nat
      = Some user.
Proof.
  split; [reflexivity|]. split; [reflexivity|]. split; [reflexivity|].
  split; [reflexivity|].
  apply (Resolve_deterministic_across_invocations
           (Process demo []) (Process demo_failing [[1; 2; 3]])
           [request_empty; request_abc] [Request text_abc []; request_empty]
           1 0 request_abc (Request text_abc [])); reflexivity.
Defined.

Example resolutions_demo :
  resolutions (Process demo []) [request_abc; request_empty; request_abc]
    = [Ok 3; Ok 1; Ok 3].
Proof. vm_compute. reflexivity. Qed.

(** ** The recommendation handler *)

(** The handler has three ways to end: the bucketing raises, the scoring
    call raises, or the fixed list is logged and returned. *)
Lemma ListRecommendations_cases (g : globals) (request : ListRecommendationsRequest) :
  ListRecommendations g request =
    match Resolve (train_users g) (user_id request) with
    | Raise exc => Prog [] (Raise exc)
    | Ok u =>
        match compute_ranking_predictions g (model g) (candidates g u) with
        | Raise exc => Prog [] (Raise exc)
        | Ok _ => fixed_run
        end
    end.
Proof.
  unfold ListRecommendations.
  destruct (Resolve _ _) as [u|exc]; [|reflexivity].
  cbn [lift mbind prog_bind outcome events].
  destruct (compute_ranking_predictions _ _ _) as [ps|exc]; reflexivity.
Qed.

Lemma ListRecommendations_returns (g : globals)
    (request : ListRecommendationsRequest) (u : Z) :
  Resolve (train_users g) (user_id request) = Ok u ->
  scoring_returns g u ->
  ListRecommendations g request = fixed_run.
Proof.
  intros HR [ps Hps]. rewrite ListRecommendations_cases, HR, Hps. reflexivity.
Qed.

(** No [try] surrounds the scoring call: what it raises leaves the handler. *)
Lemma ListRecommendations_scoring_raises (g : globals)
    (request : ListRecommendationsRequest) (u : Z) (exc : exception) :
  Resolve (train_users g) (user_id request) = Ok u ->
  compute_ranking_predictions g (model g) (candidates g u) = Raise exc ->
  ListRecommendations g request = Prog [] (Raise exc).
Proof.
  intros HR Hs. rewrite ListRecommendations_cases, HR, Hs. reflexivity.
Qed.

Lemma ListRecommendations_response (g : globals)
    (request : ListRecommendationsRequest) (response : ListRecommendationsResponse) :
  outcome (ListRecommendations g request) = Ok response ->
  response = Response prod_list.
Proof.
  rewrite ListRecommendations_cases.
  destruct (Resolve _ _) as [u|exc]; [|discriminate].
  destruct (compute_ranking_predictions _ _ _) as [ps|exc]; [|discriminate].
  simpl. congruence.
Qed.

Example ListRecommendations_demo_abc :
  ListRecommendations demo request_abc = fixed_run.
Proof. vm_compute. reflexivity. Qed.

Example ListRecommendations_demo_failing :
  ListRecommendations demo_failing request_abc
    = Prog [] (Raise (ValueError "malformed candidate set")).
Proof. vm_compute. reflexivity. Qed.

Example spec_top_k_demo :
  spec_top_k [Prediction 3 "242" (7 # 2); Prediction 3 "302" (9 # 2);
              Prediction 3 "100" (7 # 2)]
    = ["302"; "100"; "242"].
Proof. vm_compute. reflexivity. Qed.

(** C1, as stated, fails: in the demo deployment the token "abc" resolves to
    user 3, whose candidates "242" and "302" are scored 7/2 and 9/2; the
    ranking would be ["302"; "242"], the response is the fixed list. *)
Lemma ranked_candidates_not_returned : ~ returns_ranked_candidates.
Proof.
  intros H.
  specialize (H demo request_abc 3
    [Prediction 3 "242" (7 # 2); Prediction 3 "302" (9 # 2)]).
  assert (Resolve (train_users demo) (user_id request_abc) = Ok 3) as HR
    by (vm_compute; reflexivity).
  specialize (H HR). clear HR.
  assert (candidates demo 3 <> []) as Hc by (vm_compute; discriminate).
  specialize (H Hc). clear Hc.
  assert (compute_ranking_predictions demo (model demo) (candidates demo 3)
          = Ok [Prediction 3 "242" (7 # 2); Prediction 3 "302" (9 # 2)]) as Hs
    by (vm_compute; reflexivity).
  specialize (H Hs). clear Hs.
  vm_compute in H. discriminate H.
Qed.

(** C1, amended: for every request whose resolved user has a non-empty
    candidate set and whose scoring call returns, the handler returns the
    fixed list of five product ids; the predictions are computed and not
    used. *)
Theorem ListRecommendations_ignores_scores (g : globals)
    (request : ListRecommendationsRequest) (u : Z) (predictions : list prediction) :
  Resolve (train_users g) (user_id request) = Ok u ->
  candidates g u <> [] ->
  compute_ranking_predictions g (model g) (candidates g u) = Ok predictions ->
  outcome (ListRecommendations g request) = Ok (Response prod_list).
Proof.
  intros HR _ Hs.
  rewrite (ListRecommendations_returns g request u HR); [reflexivity|].
  exists predictions. exact Hs.
Qed.

Lemma ListRecommendations_ignores_scores_witness :
  Resolve (train_users demo) (user_id request_abc) = Ok 3 /\
  candidates demo 3 <> [] /\
  compute_ranking_predictions demo (model demo) (candidates demo 3)
    = Ok [Prediction 3 "242" (7 # 2); Prediction 3 "302" (9 # 2)] /\
  outcome (ListRecommendations demo request_abc) = Ok (Response prod_list).
Proof.
  assert (Resolve (train_users demo) (user_id request_abc) = Ok 3) as HR
    by (vm_compute; reflexivity).
  assert (candidates demo 3 <> []) as Hc by (vm_compute; discriminate).
  assert (compute_ranking_predictions demo (model demo) (candidates demo 3)
          = Ok [Prediction 3 "242" (7 # 2); Prediction 3 "302" (9 # 2)]) as Hs
    by (vm_compute; reflexivity).
  split; [exact HR|]. split; [exact Hc|]. split; [exact Hs|].
  exact (ListRecommendations_ignores_scores demo request_abc 3 _ HR Hc Hs).
Defined.

(** C2: with a non-empty user universe and a scoring call that returns, any
    two requests, whatever their user_id and product_ids, get the same run
    of the handler, and its response is the fixed list of five product
    ids. *)
Theorem ListRecommendations_constant (g : globals)
    (r1 r2 : ListRecommendationsRequest) :
  0 < train_users g ->
  (forall u, scoring_returns g u) ->
  ListRecommendations g r1 = ListRecommendations g r2 /\
  outcome (ListRecommendations g r1) = Ok (Response prod_list) /\
  outcome (ListRecommendations g r2) = Ok (Response prod_list).
Proof.
  intros HN Hs.
  destruct (Resolve_total (train_users g) (user_id r1) HN) as (u1 & H1 & _).
  destruct (Resolve_total (train_users g) (user_id r2) HN) as (u2 & H2 & _).
  rewrite (ListRecommendations_returns g r1 u1 H1 (Hs u1)).
  rewrite (ListRecommendations_returns g r2 u2 H2 (Hs u2)).
  repeat split.
Qed.

Lemma score_all_pairs_returns (est : Z -> string -> Q) (t : frame) (N : Z) (u : Z) :
  scoring_returns (Globals (Z -> string -> Q) est N t score_all_pairs) u.
Proof. unfold scoring_returns, score_all_pairs. simpl. eauto. Qed.

Lemma ListRecommendations_constant_witness :
  0 < train_users demo /\
  (forall u, scoring_returns demo u) /\
  ListRecommendations demo request_abc = ListRecommendations demo request_empty /\
  outcome (ListRecommendations demo request_abc) = Ok (Response prod_list) /\
  outcome (ListRecommendations demo request_empty) = Ok (Response prod_list).
Proof.
  assert (0 < train_users demo) as HN by (simpl; lia).
  assert (forall u, scoring_returns demo u) as Hs
    by (intros u; apply score_all_pairs_returns).
  split; [exact HN|]. split; [exact Hs|].
  exact (ListRecommendations_constant demo request_abc request_empty HN Hs).
Defined.

(** C4, as stated, fails: in the deployment whose scoring call raises, the
    empty token resolves to user 1, who has no held-out row, and the
    handler ends in the scoring call's exception. *)
Lemma empty_candidates_can_fail : ~ empty_candidates_never_fail.
Proof.
  intros H. specialize (H demo_failing request_empty 1).
  assert (Resolve (train_users demo_failing) (user_id request_empty) = Ok 1) as HR
    by (vm_compute; reflexivity).
  assert (candidates demo_failing 1 = []) as Hc by (vm_compute; reflexivity).
  specialize (H HR Hc). vm_compute in H. discriminate H.
Qed.

(** C4, amended: when the resolved user has no candidates, the handler
    returns exactly the fixed list if the scoring call returns on the empty
    frame; if the scoring call raises there, its exception is not caught
    and reaches the caller. *)
Theorem empty_candidates_fixed_list_or_error (g : globals)
    (request : ListRecommendationsRequest) (u : Z) :
  Resolve (train_users g) (user_id request) = Ok u ->
  candidates g u = [] ->
  outcome (ListRecommendations g request) =
    match compute_ranking_predictions g (model g) [] with
    | Ok _ => Ok (Response prod_list)
    | Raise exc => Raise exc
    end.
Proof.
  intros HR Hc. rewrite ListRecommendations_cases, HR, Hc.
  destruct (compute_ranking_predictions g (model g) []); reflexivity.
Qed.

Lemma empty_candidates_fixed_list_or_error_witness :
  Resolve (train_users demo) (user_id request_empty) = Ok 1 /\
  candidates demo 1 = [] /\
  outcome (ListRecommendations demo request_empty) =
    match compute_ranking_predictions demo (model demo) [] with
    | Ok _ => Ok (Response prod_list)
    | Raise exc => Raise exc
    end.
Proof.
  assert (Resolve (train_users demo) (user_id request_empty) = Ok 1) as HR
    by (vm_compute; reflexivity).
  assert (candidates demo 1 = []) as Hc by (vm_compute; reflexivity).
  split; [exact HR|]. split; [exact Hc|].
  exact (empty_candidates_fixed_list_or_error demo request_empty 1 HR Hc).
Defined.

Lemma prod_list_NoDup : NoDup prod_list.
Proof. apply (bool_decide_unpack _). vm_compute. exact I. Qed.

(** C5: every list that the handler returns has no duplicate item id and at
    most K = 10 entries. *)
Theorem response_NoDup_at_most_K (g : globals)
    (request : ListRecommendationsRequest) (response : ListRecommendationsResponse) :
  outcome (ListRecommendations g request) = Ok response ->
  NoDup (response_product_ids response) /\
  Z.of_nat (length (response_product_ids response)) <= TOP_K.
Proof.
  intros H. rewrite (ListRecommendations_response g request response H).
  split; [exact prod_list_NoDup | vm_compute; discriminate].
Qed.

Lemma response_NoDup_at_most_K_witness :
  outcome (ListRecommendations demo request_abc) = Ok (Response prod_list) /\
  NoDup (response_product_ids (Response prod_list)) /\
  Z.of_nat (length (response_product_ids (Response prod_list))) <= TOP_K.
Proof.
  assert (outcome (ListRecommendations demo request_abc) = Ok (Response prod_list))
    as H by (vm_compute; reflexivity).
  split; [exact H|].
  exact (response_NoDup_at_most_K demo request_abc (Response prod_list) H).
Defined.

(** C6, as stated, fails: the request for "abc" that excludes '1YMWWN1N4O'
    gets '1YMWWN1N4O' as the first recommendation. *)
Lemma excluded_items_not_removed : ~ removes_excluded.
Proof.
  intros H.
  assert (outcome (ListRecommendations demo request_abc) = Ok (Response prod_list))
    as Hr by (vm_compute; reflexivity).
  apply (H demo request_abc (Response prod_list) Hr "1YMWWN1N4O").
  - change ("1YMWWN1N4O" ∈ ["1YMWWN1N4O"]). constructor.
  - change ("1YMWWN1N4O" ∈ prod_list). unfold prod_list. constructor.
Qed.

(** C6, amended: the handler does not read the request's product_ids: two
    requests with the same user_id have the same run and the same result,
    whatever they exclude. *)
Theorem ListRecommendations_ignores_product_ids (g : globals) (token : text)
    (excluded1 excluded2 : list string) :
  ListRecommendations g (Request token excluded1)
    = ListRecommendations g (Request token excluded2).
Proof. rewrite !ListRecommendations_cases. reflexivity. Qed.

(** ** The health handlers *)

(** C7: Check returns SERVING for every request; Watch names a member that
    the status enumeration does not have, and every call raises
    AttributeError instead of returning an UNIMPLEMENTED result. *)
Theorem Check_serving_Watch_raises (request : HealthCheckRequest) :
  Check request = Ok {| status := SERVING |} /\
  Watch request = Raise (AttributeError
    "type object 'HealthCheckResponse' has no attribute 'UNIMPLEMENTED'").
Proof. split; reflexivity. Qed.

(** ** Start-up *)

Lemma opens_listener_existsb (evs : list event) :
  opens_listener evs <-> existsb is_listener evs = true.
Proof.
  unfold opens_listener. rewrite existsb_exists. split.
  - intros (e & He & Hl). exists e. split; [apply list_elem_of_In, He | exact Hl].
  - intros (e & He & Hl). exists e. split; [apply list_elem_of_In, He | exact Hl].
Qed.

Lemma bind_unfold {A B : Type} (p : prog A) (f : A -> prog B) :
  p ≫= f =
    match outcome p with
    | Ok x => Prog (events p ++ events (f x)) (outcome (f x))
    | Raise exc => Prog (events p) (Raise exc)
    end.
Proof. reflexivity. Qed.

(** One case for each way the three attempts can go. *)
Ltac profiler_cases a environ :=
  unfold initStackdriverProfiling;
  change (py_range 1 4) with [1; 2; 3];
  cbn [profiling_loop];
  generalize (passed_project_id (environ !! "GCP_PROJECT_ID")); intros arg;
  destruct (googlecloudprofiler_start a 1 arg) as [[]|exc1] eqn:E1;
  [|destruct (googlecloudprofiler_start a 2 arg) as [[]|exc2] eqn:E2;
    [|destruct (googlecloudprofiler_start a 3 arg) as [[]|exc3] eqn:E3]].

Lemma initStackdriverProfiling_returns (a : agents) (environ : gmap string string) :
  outcome (initStackdriverProfiling a environ) = Ok tt.
Proof. profiler_cases a environ; reflexivity. Qed.

Lemma initStackdriverProfiling_quiet (a : agents) (environ : gmap string string) :
  existsb is_listener (events (initStackdriverProfiling a environ)) = false.
Proof. profiler_cases a environ; reflexivity. Qed.

Lemma main_profiler_returns (a : agents) (environ : gmap string string) :
  outcome (main_profiler a environ) = Ok tt.
Proof.
  unfold main_profiler. destruct (in_environ _ _); [reflexivity|].
  unfold try_except. rewrite bind_unfold. cbn [logger_info emit outcome events].
  rewrite initStackdriverProfiling_returns. reflexivity.
Qed.

Lemma main_profiler_quiet (a : agents) (environ : gmap string string) :
  existsb is_listener (events (main_profiler a environ)) = false.
Proof.
  unfold main_profiler. destruct (in_environ _ _); [reflexivity|].
  unfold try_except. rewrite bind_unfold. cbn [logger_info emit outcome events].
  rewrite initStackdriverProfiling_returns. cbn [outcome events app existsb is_listener orb].
  apply initStackdriverProfiling_quiet.
Qed.

Lemma main_tracing_quiet (a : agents) (environ : gmap string string) :
  existsb is_listener (events (main_tracing a environ)) = false.
Proof.
  unfold main_tracing, try_except. destruct (in_environ _ _); [reflexivity|].
  destruct (StackdriverExporter a _) as [[]|exc]; cbn; [reflexivity|].
  destruct (is_KeyError_or_DefaultCredentialsError exc); reflexivity.
Qed.

(** The tracing block lets an exception through only if the exporter raised
    it and line 186 does not name its class. *)
Lemma main_tracing_raises (a : agents) (environ : gmap string string)
    (exc : exception) :
  outcome (main_tracing a environ) = Raise exc ->
  in_environ "DISABLE_TRACING" environ = false /\
  StackdriverExporter a (environ !! "GCP_PROJECT_ID") = Raise exc /\
  is_KeyError_or_DefaultCredentialsError exc = false.
Proof.
  unfold main_tracing, try_except. destruct (in_environ _ _); [discriminate|].
  destruct (StackdriverExporter a _) as [[]|exc']; cbn; [discriminate|].
  destruct (is_KeyError_or_DefaultCredentialsError exc') eqn:Ec; cbn;
    [discriminate|].
  intros [= <-]. auto.
Qed.

Lemma main_debugger_quiet (a : agents) (environ : gmap string string) :
  existsb is_listener (events (main_debugger a environ)) = false.
Proof.
  unfold main_debugger, try_except. destruct (in_environ _ _); [reflexivity|].
  destruct (googleclouddebugger_enable a) as [[]|exc]; cbn; [reflexivity|].
  destruct (is_Exception exc) eqn:Ec; cbn; rewrite ?Ec; reflexivity.
Qed.

(** The debugger block lets through only what lies outside [Exception]. *)
Lemma main_debugger_raises (a : agents) (environ : gmap string string)
    (exc : exception) :
  outcome (main_debugger a environ) = Raise exc ->
  in_environ "DISABLE_DEBUGGER" environ = false /\
  googleclouddebugger_enable a = Raise exc /\
  is_Exception exc = false.
Proof.
  unfold main_debugger, try_except. destruct (in_environ _ _); [discriminate|].
  destruct (googleclouddebugger_enable a) as [[]|exc']; cbn; [discriminate|].
  destruct (is_Exception exc') eqn:Ec; cbn; rewrite ?Ec; cbn; [discriminate|].
  intros [= <-]. auto.
Qed.

Lemma main_server_missing_addr (a : agents) (environ : gmap string string)
    (i : interceptor) :
  environ !! "PRODUCT_CATALOG_SERVICE_ADDR" = None ->
  main_server a environ i = Prog [] (Raise configuration_error).
Proof. intros H. unfold main_server. rewrite H. reflexivity. Qed.

(** An address that is set and not empty: the server is bound and started. *)
Lemma main_server_listens (a : agents) (environ : gmap string string)
    (i : interceptor) (addr : string) :
  environ !! "PRODUCT_CATALOG_SERVICE_ADDR" = Some addr -> addr <> "" ->
  outcome (main_server a environ i) = Ok tt /\
  opens_listener (events (main_server a environ i)).
Proof.
  intros H Hne. unfold main_server. rewrite H.
  change (default "" (Some addr)) with addr.
  apply String.eqb_neq in Hne. rewrite Hne. split; [reflexivity|].
  exists ServerStart. split; [|reflexivity].
  rewrite !bind_unfold. cbn. rewrite !elem_of_cons. tauto.
Qed.

Lemma after_profiler_missing_addr (a : agents) (environ : gmap string string) :
  environ !! "PRODUCT_CATALOG_SERVICE_ADDR" = None ->
  existsb is_listener (events (after_profiler a environ)) = false /\
  exists exc,
    outcome (after_profiler a environ) = Raise exc /\
    (optional_init_contained a environ -> exc = configuration_error).
Proof.
  intros H. unfold after_profiler. rewrite bind_unfold.
  pose proof (main_tracing_quiet a environ) as Qt.
  destruct (outcome (main_tracing a environ)) as [i|exc] eqn:Et.
  - rewrite bind_unfold.
    pose proof (main_debugger_quiet a environ) as Qd.
    destruct (outcome (main_debugger a environ)) as [[]|exc] eqn:Ed.
    + rewrite (main_server_missing_addr a environ i H). cbn [events outcome].
      rewrite !existsb_app, Qt, Qd. split; [reflexivity|]. eauto.
    + cbn [events outcome]. rewrite !existsb_app, Qt, Qd. split; [reflexivity|].
      exists exc. split; [reflexivity|]. intros [_ Hc].
      apply main_debugger_raises in Ed as (Hd & He & Hx).
      rewrite (Hc Hd exc He) in Hx. discriminate.
  - cbn [events outcome]. split; [exact Qt|].
    exists exc. split; [reflexivity|]. intros [Hc _].
    apply main_tracing_raises in Et as (Hd & He & Hx).
    rewrite (Hc Hd exc He) in Hx. discriminate.
Qed.

Lemma main_unfold (a : agents) (environ : gmap string string) :
  main a environ =
    Prog (Log INFO "initializing recommendationservice"
            :: events (main_profiler a environ)
            ++ events (after_profiler a environ))
         (outcome (after_profiler a environ)).
Proof.
  unfold main. rewrite bind_unfold. cbn [logger_info emit outcome events].
  rewrite bind_unfold, main_profiler_returns. reflexivity.
Qed.

Example main_demo_listens :
  outcome (main demo_agents demo_environ) = Ok tt /\
  existsb is_listener (events (main demo_agents demo_environ)) = true.
Proof. split; vm_compute; reflexivity. Qed.

(** C9: when PRODUCT_CATALOG_SERVICE_ADDR is absent from the environment the
    run of the main block never binds a port nor starts the server, and it
    ends in an uncaught exception: the configuration error of line 210,
    unless the tracing or debugger block before it has already let one
    through. *)
Theorem missing_catalog_addr_never_listens (a : agents)
    (environ : gmap string string) :
  environ !! "PRODUCT_CATALOG_SERVICE_ADDR" = None ->
  ~ opens_listener (events (main a environ)) /\
  exists exc,
    outcome (main a environ) = Raise exc /\
    (optional_init_contained a environ -> exc = configuration_error).
Proof.
  intros H. rewrite main_unfold. cbn [events outcome].
  destruct (after_profiler_missing_addr a environ H) as (Qa & exc & Ho & Hc).
  split; [|eauto].
  rewrite opens_listener_existsb.
  cbn [existsb is_listener orb]. rewrite existsb_app, main_profiler_quiet, Qa.
  discriminate.
Qed.

Lemma missing_catalog_addr_never_listens_witness :
  (∅ : gmap string string) !! "PRODUCT_CATALOG_SERVICE_ADDR" = None /\
  ~ opens_listener (events (main failing_agents ∅)) /\
  exists exc,
    outcome (main failing_agents ∅) = Raise exc /\
    (optional_init_contained failing_agents ∅ -> exc = configuration_error).
Proof.
  split; [reflexivity|].
  apply (missing_catalog_addr_never_listens failing_agents ∅). reflexivity.
Defined.

Lemma after_profiler_same (a b : agents) (environ : gmap string string) :
  same_but_profiler a b -> after_profiler b environ = after_profiler a environ.
Proof.
  destruct a, b. unfold same_but_profiler. cbn. intros (-> & -> & ->). reflexivity.
Qed.

Ltac elem_cases H :=
  cbn in H;
  repeat (apply elem_of_cons in H as [H|H]; [try discriminate H|]);
  try (apply elem_of_nil in H; destruct H).

Lemma initStackdriverProfiling_attempts (a : agents) (environ : gmap string string) :
  (attempts (events (initStackdriverProfiling a environ)) <= 3)%nat.
Proof. profiler_cases a environ; cbn; lia. Qed.

Lemma initStackdriverProfiling_sleeps (a : agents) (environ : gmap string string)
    (seconds : Z) :
  Sleep seconds ∈ events (initStackdriverProfiling a environ) -> seconds = 1.
Proof.
  profiler_cases a environ; intros H; elem_cases H; congruence.
Qed.

Lemma initStackdriverProfiling_no_warning (a : agents)
    (environ : gmap string string) (msg : string) :
  Log WARNING msg ∉ events (initStackdriverProfiling a environ).
Proof.
  profiler_cases a environ; intros H; elem_cases H.
Qed.

Lemma initStackdriverProfiling_failed_attempt (a : agents)
    (environ : gmap string string) (retry : Z) (exc : exception) :
  1 <= retry <= 3 ->
  attempted a (passed_project_id (environ !! "GCP_PROJECT_ID")) retry ->
  googlecloudprofiler_start a retry
    (passed_project_id (environ !! "GCP_PROJECT_ID")) = Raise exc ->
  exists before after,
    events (initStackdriverProfiling a environ)
      = before
        ++ failed_attempt (passed_project_id (environ !! "GCP_PROJECT_ID")) retry exc
        ++ after.
Proof.
  intros Hr. unfold attempted.
  assert (retry = 1 \/ retry = 2 \/ retry = 3) as [-> | [-> | ->]] by lia;
    profiler_cases a environ; intros Hatt Hstart;
    try (destruct (Hatt 1 ltac:(lia)) as [? ?]);
    try (destruct (Hatt 2 ltac:(lia)) as [? ?]);
    try congruence.
  all: match goal with
       | |- exists _ _, events ?p = _ ++ failed_attempt _ ?r _ ++ _ =>
           exists (take (Z.to_nat (4 * (r - 1))) (events p)),
                  (drop (Z.to_nat (4 * r)) (events p))
       end.
  all: injection Hstart as <-; reflexivity.
Qed.

(** C10: the profiler is started at most three times; every failed attempt
    is logged at INFO level with the exception's message and followed by a
    sleep of one second, the same after each attempt; nothing is logged at
    WARNING level and no exception leaves the function, whatever the agent
    raises; the main block goes on after the profiler block, and what it
    then does and how it ends do not depend on the profiler's outcomes. *)
Theorem profiler_init_bounded_and_contained (a : agents)
    (environ : gmap string string) :
  outcome (initStackdriverProfiling a environ) = Ok tt /\
  (attempts (events (initStackdriverProfiling a environ)) <= 3)%nat /\
  (forall seconds,
     Sleep seconds ∈ events (initStackdriverProfiling a environ) -> seconds = 1) /\
  (forall retry exc,
     1 <= retry <= 3 ->
     attempted a (passed_project_id (environ !! "GCP_PROJECT_ID")) retry ->
     googlecloudprofiler_start a retry
       (passed_project_id (environ !! "GCP_PROJECT_ID")) = Raise exc ->
     exists before after,
       events (initStackdriverProfiling a environ)
         = before
           ++ failed_attempt (passed_project_id (environ !! "GCP_PROJECT_ID"))
                retry exc
           ++ after) /\
  (forall msg, Log WARNING msg ∉ events (initStackdriverProfiling a environ)) /\
  outcome (main_profiler a environ) = Ok tt /\
  main a environ =
    Prog (Log INFO "initializing recommendationservice"
            :: events (main_profiler a environ)
            ++ events (after_profiler a environ))
         (outcome (after_profiler a environ)) /\
  (forall b, same_but_profiler a b ->
     after_profiler b environ = after_profiler a environ).
Proof.
  split; [apply initStackdriverProfiling_returns|].
  split; [apply initStackdriverProfiling_attempts|].
  split; [intros s; apply initStackdriverProfiling_sleeps|].
  split; [intros retry exc; apply initStackdriverProfiling_failed_attempt|].
  split; [intros msg; apply initStackdriverProfiling_no_warning|].
  split; [apply main_profiler_returns|].
  split; [apply main_unfold|].
  intros b. apply after_profiler_same.
Qed.

(** Three failures: three attempts, three sleeps of one second, no warning. *)
Example initStackdriverProfiling_gives_up :
  initStackdriverProfiling failing_agents ∅ =
    Prog (failed_attempt None 1 (BaseException "interrupted")
          ++ failed_attempt None 2 (BaseException "interrupted")
          ++ failed_attempt None 3 (BaseException "interrupted"))
         (Ok tt).
Proof. vm_compute. reflexivity. Qed.

(** * Further properties of the start-up sequence and of the handler *)

(** ** How the blocks of the main block compose *)

Lemma after_profiler_unfold (a : agents) (environ : gmap string string) :
  after_profiler a environ =
    match outcome (main_tracing a environ) with
    | Raise exc => Prog (events (main_tracing a environ)) (Raise exc)
    | Ok i =>
        match outcome (main_debugger a environ) with
        | Raise exc =>
            Prog (events (main_tracing a environ) ++ events (main_debugger a environ))
                 (Raise exc)
        | Ok _ =>
            Prog (events (main_tracing a environ) ++ events (main_debugger a environ)
                  ++ events (main_server a environ i))
                 (outcome (main_server a environ i))
        end
    end.
Proof.
  unfold after_profiler. rewrite bind_unfold.
  destruct (outcome (main_tracing a environ)) as [i|exc]; [|reflexivity].
  rewrite bind_unfold.
  destruct (outcome (main_debugger a environ)) as [[]|exc]; reflexivity.
Qed.

Lemma main_server_cases (a : agents) (environ : gmap string string)
    (i : interceptor) :
  main_server a environ i =
    if String.eqb (catalog_addr environ) ""
    then Prog [] (Raise configuration_error)
    else Prog (serving_events a environ i) (Ok tt).
Proof.
  unfold main_server, serving_events, catalog_addr, port.
  destruct (String.eqb _ ""); reflexivity.
Qed.

(** Where an effect of the main block comes from. *)
Lemma main_event_cases (a : agents) (environ : gmap string string) (e : event) :
  e ∈ events (main a environ) ->
  e = Log INFO "initializing recommendationservice" \/
  e ∈ events (main_profiler a environ) \/
  e ∈ events (main_tracing a environ) \/
  ((exists i, outcome (main_tracing a environ) = Ok i) /\
   e ∈ events (main_debugger a environ)) \/
  (exists i, outcome (main_tracing a environ) = Ok i /\
             outcome (main_debugger a environ) = Ok tt /\
             String.eqb (catalog_addr environ) "" = false /\
             e ∈ serving_events a environ i).
Proof.
  rewrite main_unfold, after_profiler_unfold. cbn [events].
  rewrite elem_of_cons, elem_of_app.
  intros [H | [H | H]]; [tauto | tauto |]. right. right.
  destruct (outcome (main_tracing a environ)) as [i|exc] eqn:Et; cbn [events] in H.
  - destruct (outcome (main_debugger a environ)) as [[]|exc] eqn:Ed; cbn [events] in H.
    + rewrite main_server_cases in H. rewrite !elem_of_app in H.
      destruct H as [H | [H | H]]; [tauto | eauto |]. right. right.
      destruct (String.eqb (catalog_addr environ) "") eqn:Ea; cbn [events] in H.
      * apply elem_of_nil in H. destruct H.
      * exists i. auto.
    + rewrite elem_of_app in H. destruct H; eauto.
  - tauto.
Qed.

Lemma main_profiler_events_in_main (a : agents) (environ : gmap string string)
    (e : event) :
  e ∈ events (main_profiler a environ) -> e ∈ events (main a environ).
Proof.
  intros H. rewrite main_unfold. cbn [events].
  rewrite elem_of_cons, elem_of_app. tauto.
Qed.

Lemma main_outcome_cases (a : agents) (environ : gmap string string) :
  outcome (main a environ) =
    match outcome (main_tracing a environ) with
    | Raise exc => Raise exc
    | Ok _ =>
        match outcome (main_debugger a environ) with
        | Raise exc => Raise exc
        | Ok _ =>
            if String.eqb (catalog_addr environ) ""
            then Raise configuration_error else Ok tt
        end
    end.
Proof.
  rewrite main_unfold, after_profiler_unfold. cbn [outcome].
  destruct (outcome (main_tracing a environ)) as [i|exc]; [|reflexivity].
  destruct (outcome (main_debugger a environ)) as [[]|exc]; [|reflexivity].
  rewrite main_server_cases. destruct (String.eqb _ ""); reflexivity.
Qed.

Lemma main_profiler_shape (a : agents) (environ : gmap string string) :
  Forall (profiler_event environ) (events (main_profiler a environ)).
Proof.
  unfold main_profiler, try_except.
  destruct (in_environ _ _); [repeat constructor|].
  rewrite bind_unfold. cbn [logger_info emit outcome events].
  rewrite initStackdriverProfiling_returns. cbn [outcome events app].
  constructor; [exact I|].
  unfold profiler_event. profiler_cases a environ; repeat constructor.
Qed.

Lemma main_tracing_shape (a : agents) (environ : gmap string string) :
  Forall (tracing_event environ) (events (main_tracing a environ)).
Proof.
  unfold main_tracing, try_except. destruct (in_environ _ _); [repeat constructor|].
  destruct (StackdriverExporter a _) as [[]|exc]; cbn; [repeat constructor|].
  destruct (is_KeyError_or_DefaultCredentialsError exc); repeat constructor.
Qed.

Lemma main_debugger_shape (a : agents) (environ : gmap string string) :
  Forall debugger_event (events (main_debugger a environ)).
Proof.
  unfold main_debugger, try_except. destruct (in_environ _ _); [repeat constructor|].
  destruct (googleclouddebugger_enable a) as [[]|exc]; cbn; [repeat constructor|].
  destruct (is_Exception exc) eqn:Ec; cbn; rewrite ?Ec; repeat constructor.
Qed.

Lemma serving_events_inv (a : agents) (environ : gmap string string)
    (i : interceptor) (e : event) :
  e ∈ serving_events a environ i ->
  e = Log INFO ("product catalog address: " +:+ catalog_addr environ) \/
  e = InsecureChannel (catalog_addr environ) \/
  e = GrpcServer 10 [i] \/
  e = AddServicer "RecommendationService" \/
  e = AddServicer "Health" \/
  e = Log INFO ("listening on port: " +:+ port environ) \/
  e = AddInsecurePort ("[::]:" +:+ port environ) \/
  e = ServerStart \/
  e = Sleep 10000 \/
  e = ServerStop 0.
Proof.
  unfold serving_events. rewrite !elem_of_app, !elem_of_cons, elem_of_nil.
  rewrite elem_of_replicate. tauto.
Qed.

Lemma serving_events_in_main (a : agents) (environ : gmap string string)
    (i : interceptor) (e : event) :
  outcome (main_tracing a environ) = Ok i ->
  outcome (main_debugger a environ) = Ok tt ->
  String.eqb (catalog_addr environ) "" = false ->
  e ∈ serving_events a environ i -> e ∈ events (main a environ).
Proof.
  intros Ht Hd Ha He. rewrite main_unfold, after_profiler_unfold, Ht, Hd.
  rewrite main_server_cases, Ha. cbn [events].
  rewrite elem_of_cons, !elem_of_app. tauto.
Qed.

Lemma listener_origin (a : agents) (environ : gmap string string) (e : event) :
  e ∈ events (main a environ) -> is_listener e = true ->
  exists i, outcome (main_tracing a environ) = Ok i /\
            outcome (main_debugger a environ) = Ok tt /\
            String.eqb (catalog_addr environ) "" = false /\
            e ∈ serving_events a environ i.
Proof.
  intros He Hl.
  destruct (main_event_cases a environ e He) as [-> | [H | [H | [[_ H] | H]]]].
  - discriminate.
  - eapply Forall_forall in H; [|apply main_profiler_shape].
    destruct e as [[]| | | | | | | | | | |]; simpl in *; try discriminate; tauto.
  - eapply Forall_forall in H; [|apply main_tracing_shape].
    destruct e as [[]| | | | | | | | | | |]; simpl in *; try discriminate; tauto.
  - eapply Forall_forall in H; [|apply main_debugger_shape].
    destruct e as [[]| | | | | | | | | | |]; simpl in *; try discriminate; tauto.
  - exact H.
Qed.

Lemma main_returns_iff (a : agents) (environ : gmap string string) :
  outcome (main a environ) = Ok tt <->
  exists i, outcome (main_tracing a environ) = Ok i /\
            outcome (main_debugger a environ) = Ok tt /\
            String.eqb (catalog_addr environ) "" = false.
Proof.
  rewrite main_outcome_cases. split.
  - destruct (outcome (main_tracing a environ)) as [i|]; [|discriminate].
    destruct (outcome (main_debugger a environ)) as [[]|]; [|discriminate].
    destruct (String.eqb _ ""); [discriminate|]. eauto.
  - intros (i & -> & -> & ->). reflexivity.
Qed.


(** ** The address test and the listener *)


(** X2: a PRODUCT_CATALOG_SERVICE_ADDR that is set to the empty string is
    treated like a missing one: no port is bound, the server is not
    started, and the run ends in an uncaught exception, the configuration
    error of line 210 unless the tracing or debugger block let another one
    through. *)
Theorem empty_catalog_addr_never_listens (a : agents)
    (environ : gmap string string) :
  environ !! "PRODUCT_CATALOG_SERVICE_ADDR" = Some "" ->
  ~ opens_listener (events (main a environ)) /\
  exists exc,
    outcome (main a environ) = Raise exc /\
    (optional_init_contained a environ -> exc = configuration_error).
Proof.
  intros H.
  assert (String.eqb (catalog_addr environ) "" = true) as Ha
    by (unfold catalog_addr; rewrite H; reflexivity).
  split.
  - intros (e & He & Hl).
    destruct (listener_origin a environ e He Hl) as (i & _ & _ & Hf & _).
    congruence.
  - rewrite main_outcome_cases, Ha.
    destruct (outcome (main_tracing a environ)) as [i|exc] eqn:Et.
    + destruct (outcome (main_debugger a environ)) as [[]|exc] eqn:Ed; [eauto|].
      exists exc. split; [reflexivity|]. intros [_ Hc].
      apply main_debugger_raises in Ed as (Hd & He & Hx).
      rewrite (Hc Hd exc He) in Hx. discriminate.
    + exists exc. split; [reflexivity|]. intros [Hc _].
      apply main_tracing_raises in Et as (Hd & He & Hx).
      rewrite (Hc Hd exc He) in Hx. discriminate.
Qed.

Lemma empty_catalog_addr_never_listens_witness :
  empty_addr_environ !! "PRODUCT_CATALOG_SERVICE_ADDR" = Some "" /\
  ~ opens_listener (events (main demo_agents empty_addr_environ)) /\
  exists exc,
    outcome (main demo_agents empty_addr_environ) = Raise exc /\
    (optional_init_contained demo_agents empty_addr_environ ->
     exc = configuration_error).
Proof.
  split; [vm_compute; reflexivity|].
  apply (empty_catalog_addr_never_listens demo_agents empty_addr_environ).
  vm_compute. reflexivity.
Defined.

(** X3: the only address the main block ever binds is "[::]:" followed by
    the value of PORT, or by 8080 when PORT is not set; the value is not
    checked.  A run that returns normally has bound it. *)
Theorem bound_address (a : agents) (environ : gmap string string) :
  (forall addr, AddInsecurePort addr ∈ events (main a environ) ->
     addr = "[::]:" +:+ default "8080" (environ !! "PORT")) /\
  (outcome (main a environ) = Ok tt ->
     AddInsecurePort ("[::]:" +:+ default "8080" (environ !! "PORT"))
       ∈ events (main a environ)).
Proof.
  split.
  - intros addr He.
    destruct (listener_origin a environ _ He eq_refl) as (i & _ & _ & _ & Hs).
    apply serving_events_inv in Hs.
    repeat (destruct Hs as [Hs | Hs]; try discriminate Hs).
    injection Hs as ->. reflexivity.
  - intros Ho. apply main_returns_iff in Ho as (i & Ht & Hd & Ha).
    apply (serving_events_in_main a environ i); auto.
    unfold serving_events, port. rewrite elem_of_app, !elem_of_cons. tauto.
Qed.

Example bound_address_default :
  AddInsecurePort "[::]:8080"
    ∈ events (main demo_agents
                {[ "PRODUCT_CATALOG_SERVICE_ADDR" := "productcatalogservice:3550" ]}).
Proof. apply list_elem_of_In. vm_compute. tauto. Qed.

(** ** The optional subsystems *)

Lemma in_environ_set (key value : string) (environ : gmap string string) :
  environ !! key = Some value -> in_environ key environ = true.
Proof. intros H. unfold in_environ. rewrite H. reflexivity. Qed.

Lemma ProfilerStart_origin (a : agents) (environ : gmap string string)
    (p : option string) :
  ProfilerStart p ∈ events (main a environ) ->
  ProfilerStart p ∈ events (main_profiler a environ).
Proof.
  intros He.
  destruct (main_event_cases a environ _ He)
    as [H | [H | [H | [[_ H] | (i & _ & _ & _ & H)]]]].
  - discriminate.
  - exact H.
  - eapply Forall_forall in H; [|apply main_tracing_shape]. destruct H.
  - eapply Forall_forall in H; [|apply main_debugger_shape]. destruct H.
  - apply serving_events_inv in H.
    repeat (destruct H as [H | H]; try discriminate H).
Qed.

Lemma ExporterInit_origin (a : agents) (environ : gmap string string)
    (p : option string) :
  ExporterInit p ∈ events (main a environ) ->
  ExporterInit p ∈ events (main_tracing a environ).
Proof.
  intros He.
  destruct (main_event_cases a environ _ He)
    as [H | [H | [H | [[_ H] | (i & _ & _ & _ & H)]]]].
  - discriminate.
  - eapply Forall_forall in H; [|apply main_profiler_shape]. destruct H.
  - exact H.
  - eapply Forall_forall in H; [|apply main_debugger_shape]. destruct H.
  - apply serving_events_inv in H.
    repeat (destruct H as [H | H]; try discriminate H).
Qed.

Lemma DebuggerEnable_origin (a : agents) (environ : gmap string string) :
  DebuggerEnable ∈ events (main a environ) ->
  (exists i, outcome (main_tracing a environ) = Ok i) /\
  DebuggerEnable ∈ events (main_debugger a environ).
Proof.
  intros He.
  destruct (main_event_cases a environ _ He)
    as [H | [H | [H | [H | (i & _ & _ & _ & H)]]]].
  - discriminate.
  - eapply Forall_forall in H; [|apply main_profiler_shape]. destruct H.
  - eapply Forall_forall in H; [|apply main_tracing_shape]. destruct H.
  - exact H.
  - apply serving_events_inv in H.
    repeat (destruct H as [H | H]; try discriminate H).
Qed.

Lemma main_profiler_disabled (a : agents) (environ : gmap string string) :
  in_environ "DISABLE_PROFILER" environ = true ->
  main_profiler a environ = Prog [Log INFO "Profiler disabled."] (Ok tt).
Proof. intros H. unfold main_profiler. rewrite H. reflexivity. Qed.

Lemma main_tracing_disabled (a : agents) (environ : gmap string string) :
  in_environ "DISABLE_TRACING" environ = true ->
  main_tracing a environ =
    Prog [Log INFO "Tracing disabled."] (Ok OpenCensusServerInterceptor_default).
Proof. intros H. unfold main_tracing. rewrite H. reflexivity. Qed.

Lemma main_debugger_disabled (a : agents) (environ : gmap string string) :
  in_environ "DISABLE_DEBUGGER" environ = true ->
  main_debugger a environ = Prog [Log INFO "Debugger disabled."] (Ok tt).
Proof. intros H. unfold main_debugger. rewrite H. reflexivity. Qed.

(** X4: each DISABLE_ variable acts by being present, whatever its value
    ("0", "false" and the empty string disable as well): with
    DISABLE_PROFILER set the profiler agent is never started, with
    DISABLE_TRACING set the Stackdriver exporter is never constructed, with
    DISABLE_DEBUGGER set the debugger is never enabled. *)
Theorem disable_flags_by_presence (a : agents) (environ : gmap string string) :
  (forall value, environ !! "DISABLE_PROFILER" = Some value ->
     forall p, ProfilerStart p ∉ events (main a environ)) /\
  (forall value, environ !! "DISABLE_TRACING" = Some value ->
     forall p, ExporterInit p ∉ events (main a environ)) /\
  (forall value, environ !! "DISABLE_DEBUGGER" = Some value ->
     DebuggerEnable ∉ events (main a environ)).
Proof.
  split; [|split].
  - intros value H p He. apply ProfilerStart_origin in He.
    rewrite (main_profiler_disabled a environ (in_environ_set _ _ _ H)) in He.
    elem_cases He.
  - intros value H p He. apply ExporterInit_origin in He.
    rewrite (main_tracing_disabled a environ (in_environ_set _ _ _ H)) in He.
    elem_cases He.
  - intros value H He. apply DebuggerEnable_origin in He as [_ He].
    rewrite (main_debugger_disabled a environ (in_environ_set _ _ _ H)) in He.
    elem_cases He.
Qed.

Lemma disable_flags_by_presence_witness :
  disabled_environ !! "DISABLE_PROFILER" = Some "0" /\
  disabled_environ !! "DISABLE_TRACING" = Some "false" /\
  disabled_environ !! "DISABLE_DEBUGGER" = Some "" /\
  (forall p, ProfilerStart p ∉ events (main demo_agents disabled_environ)) /\
  (forall p, ExporterInit p ∉ events (main demo_agents disabled_environ)) /\
  DebuggerEnable ∉ events (main demo_agents disabled_environ).
Proof.
  assert (disabled_environ !! "DISABLE_PROFILER" = Some "0") as H1
    by (vm_compute; reflexivity).
  assert (disabled_environ !! "DISABLE_TRACING" = Some "false") as H2
    by (vm_compute; reflexivity).
  assert (disabled_environ !! "DISABLE_DEBUGGER" = Some "") as H3
    by (vm_compute; reflexivity).
  destruct (disable_flags_by_presence demo_agents disabled_environ) as (P & T & D).
  split; [exact H1|]. split; [exact H2|]. split; [exact H3|].
  split; [exact (P _ H1)|]. split; [exact (T _ H2) | exact (D _ H3)].
Defined.

Lemma passed_project_id_not_empty (project_id : option string) :
  passed_project_id project_id <> Some "".
Proof.
  unfold passed_project_id. destruct project_id as [p|]; [|discriminate].
  destruct (String.eqb p "") eqn:E; [discriminate|].
  apply String.eqb_neq in E. congruence.
Qed.

(** X5: the profiler agent is only ever started with the project id that
    passes the truth test of line 104, so never with an empty one: an empty
    GCP_PROJECT_ID counts as unset.  The Stackdriver exporter gets the value
    of GCP_PROJECT_ID as it is, the empty string included. *)
Theorem project_id_passed (a : agents) (environ : gmap string string) :
  (forall p, ProfilerStart p ∈ events (main a environ) ->
     p = passed_project_id (environ !! "GCP_PROJECT_ID") /\ p <> Some "") /\
  (forall p, ExporterInit p ∈ events (main a environ) ->
     p = environ !! "GCP_PROJECT_ID").
Proof.
  split.
  - intros p He. apply ProfilerStart_origin in He.
    eapply Forall_forall in He; [|apply main_profiler_shape].
    simpl in He. subst p. split; [reflexivity|apply passed_project_id_not_empty].
  - intros p He. apply ExporterInit_origin in He.
    eapply Forall_forall in He; [|apply main_tracing_shape]. exact He.
Qed.

Example project_id_empty :
  ProfilerStart None ∈ events (main demo_agents empty_addr_environ) /\
  ExporterInit (Some "") ∈ events (main demo_agents empty_addr_environ).
Proof. split; apply list_elem_of_In; vm_compute; tauto. Qed.

(** X6: the tracing block hands on the interceptor without sampler and
    exporter exactly when DISABLE_TRACING is set or the construction of the
    exporter raises KeyError or DefaultCredentialsError; missing credentials
    degrade tracing and do not stop the start-up. *)
Theorem tracing_fallback (a : agents) (environ : gmap string string) :
  outcome (main_tracing a environ) = Ok OpenCensusServerInterceptor_default <->
  (in_environ "DISABLE_TRACING" environ = true \/ exporter_unavailable a environ).
Proof.
  unfold main_tracing, try_except, exporter_unavailable.
  destruct (in_environ _ _); [cbn; tauto|].
  destruct (StackdriverExporter a _) as [[]|exc]; cbn.
  - split; [discriminate|]. intros [H | (exc & H & _)]; discriminate.
  - destruct (is_KeyError_or_DefaultCredentialsError exc) eqn:Ec; cbn.
    + split; [eauto | reflexivity].
    + split; [discriminate|]. intros [H | (exc' & [= <-] & H)]; congruence.
Qed.

Lemma main_tracing_crash (a : agents) (environ : gmap string string)
    (exc : exception) :
  in_environ "DISABLE_TRACING" environ = false ->
  StackdriverExporter a (environ !! "GCP_PROJECT_ID") = Raise exc ->
  is_KeyError_or_DefaultCredentialsError exc = false ->
  outcome (main_tracing a environ) = Raise exc.
Proof.
  intros Hf He Hc. unfold main_tracing, try_except. rewrite Hf, He. cbn.
  rewrite Hc. reflexivity.
Qed.

(** X7: with tracing enabled, an exception of the exporter's construction
    that is neither KeyError nor DefaultCredentialsError is not caught: the
    process ends with it, the debugger is never enabled and no port is
    bound, whatever the rest of the environment. *)
Theorem unexpected_exporter_error_aborts (a : agents)
    (environ : gmap string string) (exc : exception) :
  in_environ "DISABLE_TRACING" environ = false ->
  StackdriverExporter a (environ !! "GCP_PROJECT_ID") = Raise exc ->
  is_KeyError_or_DefaultCredentialsError exc = false ->
  outcome (main a environ) = Raise exc /\
  (DebuggerEnable ∉ events (main a environ)) /\
  ~ opens_listener (events (main a environ)).
Proof.
  intros Hf He Hc. pose proof (main_tracing_crash a environ exc Hf He Hc) as Ht.
  split; [rewrite main_outcome_cases, Ht; reflexivity|]. split.
  - intros H. apply DebuggerEnable_origin in H as [[i Hi] _]. congruence.
  - intros (e & H & Hl).
    destruct (listener_origin a environ e H Hl) as (i & Hi & _). congruence.
Qed.

Lemma unexpected_exporter_error_aborts_witness :
  in_environ "DISABLE_TRACING" demo_environ = false /\
  StackdriverExporter broken_exporter_agents (demo_environ !! "GCP_PROJECT_ID")
    = Raise (ValueError "bad transport") /\
  is_KeyError_or_DefaultCredentialsError (ValueError "bad transport") = false /\
  outcome (main broken_exporter_agents demo_environ)
    = Raise (ValueError "bad transport") /\
  (DebuggerEnable ∉ events (main broken_exporter_agents demo_environ)) /\
  ~ opens_listener (events (main broken_exporter_agents demo_environ)).
Proof.
  assert (in_environ "DISABLE_TRACING" demo_environ = false) as Hf
    by (vm_compute; reflexivity).
  split; [exact Hf|]. split; [reflexivity|]. split; [reflexivity|].
  exact (unexpected_exporter_error_aborts broken_exporter_agents demo_environ
           (ValueError "bad transport") Hf eq_refl eq_refl).
Defined.

(** X8: when the debugger is enabled and [googleclouddebugger.enable] raises
    an exception of class Exception, the block logs "Could not enable
    debugger" at ERROR level, prints the traceback, logs the text None (the
    value that print_exc returns) and ends normally; "Debugger disabled." is
    not logged. *)
Theorem debugger_failure_contained (a : agents) (environ : gmap string string)
    (exc : exception) :
  in_environ "DISABLE_DEBUGGER" environ = false ->
  googleclouddebugger_enable a = Raise exc ->
  is_Exception exc = true ->
  main_debugger a environ =
    Prog [ Log INFO "Debugger enabled."; DebuggerEnable;
           Log ERROR "Could not enable debugger"; PrintExc; Log ERROR "None" ]
         (Ok tt).
Proof.
  intros Hf He Hc. unfold main_debugger, try_except. rewrite Hf, He. cbn.
  rewrite Hc. reflexivity.
Qed.

Lemma debugger_failure_contained_witness :
  in_environ "DISABLE_DEBUGGER" demo_environ = false /\
  googleclouddebugger_enable failing_agents = Raise (Exception "not on GCE") /\
  is_Exception (Exception "not on GCE") = true /\
  main_debugger failing_agents demo_environ =
    Prog [ Log INFO "Debugger enabled."; DebuggerEnable;
           Log ERROR "Could not enable debugger"; PrintExc; Log ERROR "None" ]
         (Ok tt).
Proof.
  assert (in_environ "DISABLE_DEBUGGER" demo_environ = false) as Hf
    by (vm_compute; reflexivity).
  split; [exact Hf|]. split; [reflexivity|]. split; [reflexivity|].
  exact (debugger_failure_contained failing_agents demo_environ
           (Exception "not on GCE") Hf eq_refl eq_refl).
Defined.

(** X9: what the three "disabled" log lines tell.  "Profiler disabled." and
    "Debugger disabled." are logged exactly when the DISABLE_ variable is
    set, so not when the agent was tried and failed; "Tracing disabled." is
    logged when DISABLE_TRACING is set and also when the exporter could not
    be constructed for want of credentials. *)
Theorem disabled_log_lines (a : agents) (environ : gmap string string) :
  (Log INFO "Profiler disabled." ∈ events (main_profiler a environ) <->
     in_environ "DISABLE_PROFILER" environ = true) /\
  (Log INFO "Tracing disabled." ∈ events (main_tracing a environ) <->
     (in_environ "DISABLE_TRACING" environ = true \/
      exporter_unavailable a environ)) /\
  (Log INFO "Debugger disabled." ∈ events (main_debugger a environ) <->
     in_environ "DISABLE_DEBUGGER" environ = true).
Proof.
  split; [|split].
  - unfold main_profiler, try_except.
    destruct (in_environ _ _).
    + split; [reflexivity|]. intros _. cbn. constructor.
    + split; [|discriminate]. intros H. exfalso. revert H.
      rewrite bind_unfold. cbn [logger_info emit outcome events].
      rewrite initStackdriverProfiling_returns. cbn [outcome events app].
      rewrite elem_of_cons. intros [H | H]; [discriminate H|]. revert H.
      profiler_cases a environ; intros H; elem_cases H.
  - unfold main_tracing, try_except, exporter_unavailable.
    destruct (in_environ _ _).
    + split; [auto|]. intros _. cbn. constructor.
    + destruct (StackdriverExporter a _) as [[]|exc]; cbn.
      * split; [intros H; elem_cases H|].
        intros [H | (exc & H & _)]; discriminate.
      * destruct (is_KeyError_or_DefaultCredentialsError exc) eqn:Ec; cbn.
        -- split; [eauto|]. intros _. rewrite !elem_of_cons. tauto.
        -- split; [intros H; elem_cases H|].
           intros [H | (exc' & [= <-] & H)]; congruence.
  - unfold main_debugger, try_except.
    destruct (in_environ _ _).
    + split; [reflexivity|]. intros _. cbn. constructor.
    + split; [|discriminate]. intros H. exfalso. revert H.
      destruct (googleclouddebugger_enable a) as [[]|exc]; cbn.
      * intros H; elem_cases H.
      * destruct (is_Exception exc) eqn:Ec; cbn; rewrite ?Ec; cbn;
          intros H; elem_cases H.
Qed.

Lemma GrpcServer_origin (a : agents) (environ : gmap string string)
    (w : Z) (ics : list interceptor) :
  GrpcServer w ics ∈ events (main a environ) ->
  exists i, outcome (main_tracing a environ) = Ok i /\ w = 10 /\ ics = [i].
Proof.
  intros He.
  destruct (main_event_cases a environ _ He)
    as [H | [H | [H | [[_ H] | (i & Hi & _ & _ & H)]]]].
  - discriminate.
  - eapply Forall_forall in H; [|apply main_profiler_shape]. destruct H.
  - eapply Forall_forall in H; [|apply main_tracing_shape]. destruct H.
  - eapply Forall_forall in H; [|apply main_debugger_shape]. destruct H.
  - apply serving_events_inv in H. exists i. split; [exact Hi|].
    repeat (destruct H as [H | H]; try discriminate H).
    injection H as -> ->. auto.
Qed.

(** X10: the gRPC server is only ever created with a pool of 10 workers and
    with the one interceptor that the tracing block returned; when
    DISABLE_TRACING is set that is the interceptor without sampler and
    exporter. *)
Theorem server_pool_and_interceptor (a : agents) (environ : gmap string string)
    (max_workers : Z) (interceptors : list interceptor) :
  GrpcServer max_workers interceptors ∈ events (main a environ) ->
  max_workers = 10 /\
  (exists i, outcome (main_tracing a environ) = Ok i /\ interceptors = [i]) /\
  (in_environ "DISABLE_TRACING" environ = true ->
   interceptors = [OpenCensusServerInterceptor_default]).
Proof.
  intros He. apply GrpcServer_origin in He as (i & Hi & -> & ->).
  split; [reflexivity|]. split; [eauto|].
  intros Hf. rewrite (main_tracing_disabled a environ Hf) in Hi.
  injection Hi as <-. reflexivity.
Qed.

Lemma server_pool_and_interceptor_witness :
  GrpcServer 10 [OpenCensusServerInterceptor_default]
    ∈ events (main demo_agents demo_environ) /\
  10 = 10 /\
  (exists i, outcome (main_tracing demo_agents demo_environ) = Ok i /\
             [OpenCensusServerInterceptor_default] = [i]) /\
  (in_environ "DISABLE_TRACING" demo_environ = true ->
   [OpenCensusServerInterceptor_default] = [OpenCensusServerInterceptor_default]).
Proof.
  assert (GrpcServer 10 [OpenCensusServerInterceptor_default]
            ∈ events (main demo_agents demo_environ)) as H
    by (apply list_elem_of_In; vm_compute; tauto).
  split; [exact H|].
  exact (server_pool_and_interceptor demo_agents demo_environ 10 _ H).
Defined.

Lemma ServerStop_origin (a : agents) (environ : gmap string string) (grace : Z) :
  ServerStop grace ∈ events (main a environ) ->
  grace = 0 /\ outcome (main a environ) = Ok tt.
Proof.
  intros He.
  destruct (main_event_cases a environ _ He)
    as [H | [H | [H | [[_ H] | (i & Hi & Hd & Ha & H)]]]].
  - discriminate.
  - eapply Forall_forall in H; [|apply main_profiler_shape]. destruct H.
  - eapply Forall_forall in H; [|apply main_tracing_shape]. destruct H.
  - eapply Forall_forall in H; [|apply main_debugger_shape]. destruct H.
  - split; [|apply main_returns_iff; eauto].
    apply serving_events_inv in H.
    repeat (destruct H as [H | H]; try discriminate H).
    injection H as ->. reflexivity.
Qed.

(** X11: the server is stopped only in a run that started it, and then with
    a grace period of 0 seconds; such a run ends with the start, the
    keep-alive sleeps of 10000 seconds that complete before the interrupt,
    and the stop, in this order. *)
Theorem shutdown_after_start (a : agents) (environ : gmap string string) :
  (forall grace, ServerStop grace ∈ events (main a environ) ->
     grace = 0 /\ outcome (main a environ) = Ok tt) /\
  (outcome (main a environ) = Ok tt ->
   exists before,
     events (main a environ)
       = before ++ ServerStart :: replicate (interrupt_after a) (Sleep 10000)
                ++ [ServerStop 0]).
Proof.
  split; [intros grace; apply ServerStop_origin|].
  intros Ho. apply main_returns_iff in Ho as (i & Ht & Hd & Ha).
  rewrite main_unfold, after_profiler_unfold, Ht, Hd, main_server_cases, Ha.
  cbn [events]. unfold serving_events.
  exists (Log INFO "initializing recommendationservice"
          :: events (main_profiler a environ) ++ events (main_tracing a environ)
          ++ events (main_debugger a environ)
          ++ [ Log INFO ("product catalog address: " +:+ catalog_addr environ);
               InsecureChannel (catalog_addr environ);
               GrpcServer 10 [i];
               AddServicer "RecommendationService";
               AddServicer "Health";
               Log INFO ("listening on port: " +:+ port environ);
               AddInsecurePort ("[::]:" +:+ port environ) ]).
  cbn [app]. rewrite <- !app_assoc. reflexivity.
Qed.

(** ** The profiler's retry loop *)

Ltac eval_total_sleep :=
  match goal with
  | |- context [total_sleep ?l] =>
      let v := eval vm_compute in (total_sleep l) in
      change (total_sleep l) with v
  end.

(** X12: the loop stops at the first attempt that succeeds: if the attempt
    number [retry] is the first to succeed, the agent has been called
    [retry] times, one second has been slept after each of the [retry - 1]
    failures, and the last thing done is to log the success. *)
Theorem profiler_stops_at_first_success (a : agents)
    (environ : gmap string string) (retry : Z) :
  1 <= retry <= 3 ->
  attempted a (passed_project_id (environ !! "GCP_PROJECT_ID")) retry ->
  googlecloudprofiler_start a retry
    (passed_project_id (environ !! "GCP_PROJECT_ID")) = Ok tt ->
  attempts (events (initStackdriverProfiling a environ)) = Z.to_nat retry /\
  total_sleep (events (initStackdriverProfiling a environ)) = retry - 1 /\
  last (events (initStackdriverProfiling a environ)) = Some profiler_started.
Proof.
  intros Hr. unfold attempted.
  assert (retry = 1 \/ retry = 2 \/ retry = 3) as [-> | [-> | ->]] by lia;
    profiler_cases a environ; intros Hatt Hstart;
    try (destruct (Hatt 1 ltac:(lia)) as [? ?]);
    try (destruct (Hatt 2 ltac:(lia)) as [? ?]);
    try congruence.
  all: repeat split; try reflexivity; eval_total_sleep; reflexivity.
Qed.

Lemma profiler_stops_at_first_success_witness :
  1 <= 3 <= 3 /\
  attempted demo_agents (passed_project_id (demo_environ !! "GCP_PROJECT_ID")) 3 /\
  googlecloudprofiler_start demo_agents 3
    (passed_project_id (demo_environ !! "GCP_PROJECT_ID")) = Ok tt /\
  attempts (events (initStackdriverProfiling demo_agents demo_environ))
    = Z.to_nat 3 /\
  total_sleep (events (initStackdriverProfiling demo_agents demo_environ)) = 3 - 1 /\
  last (events (initStackdriverProfiling demo_agents demo_environ))
    = Some profiler_started.
Proof.
  assert (1 <= 3 <= 3) as Hr by lia.
  assert (attempted demo_agents
            (passed_project_id (demo_environ !! "GCP_PROJECT_ID")) 3) as Ha.
  { intros r Hlt. exists (Exception "no credentials"). simpl.
    destruct (r <? 3) eqn:E; [reflexivity|]. apply Z.ltb_ge in E. lia. }
  split; [exact Hr|]. split; [exact Ha|]. split; [reflexivity|].
  exact (profiler_stops_at_first_success demo_agents demo_environ 3 Hr Ha eq_refl).
Defined.

(** X13: when all three attempts fail, the function has called the agent
    three times and slept three seconds in all; after the third failure it
    still announces a retry in 30 seconds and sleeps one second, then
    returns without another attempt and without logging a success. *)
Theorem profiler_gives_up_after_three (a : agents) (environ : gmap string string) :
  (forall retry, 1 <= retry <= 3 ->
     exists exc, googlecloudprofiler_start a retry
                   (passed_project_id (environ !! "GCP_PROJECT_ID")) = Raise exc) ->
  outcome (initStackdriverProfiling a environ) = Ok tt /\
  attempts (events (initStackdriverProfiling a environ)) = 3%nat /\
  total_sleep (events (initStackdriverProfiling a environ)) = 3 /\
  (profiler_started ∉ events (initStackdriverProfiling a environ)) /\
  (Log INFO "Sleeping 30 seconds to retry Stackdriver Profiler agent initialization"
     ∈ events (initStackdriverProfiling a environ)) /\
  last (events (initStackdriverProfiling a environ)) = Some (Sleep 1).
Proof.
  profiler_cases a environ; intros Hall.
  1: destruct (Hall 1 ltac:(lia)) as [? ?]; congruence.
  1: destruct (Hall 2 ltac:(lia)) as [? ?]; congruence.
  1: destruct (Hall 3 ltac:(lia)) as [? ?]; congruence.
  split; [reflexivity|]. split; [reflexivity|].
  split; [eval_total_sleep; reflexivity|].
  split; [intros H; elem_cases H|].
  split; [|reflexivity].
  cbn. rewrite !elem_of_cons. tauto.
Qed.

Lemma profiler_gives_up_after_three_witness :
  (forall retry, 1 <= retry <= 3 ->
     exists exc, googlecloudprofiler_start failing_agents retry
                   (passed_project_id ((∅ : gmap string string) !! "GCP_PROJECT_ID"))
                 = Raise exc) /\
  outcome (initStackdriverProfiling failing_agents ∅) = Ok tt /\
  attempts (events (initStackdriverProfiling failing_agents ∅)) = 3%nat /\
  total_sleep (events (initStackdriverProfiling failing_agents ∅)) = 3 /\
  (profiler_started ∉ events (initStackdriverProfiling failing_agents ∅)) /\
  (Log INFO "Sleeping 30 seconds to retry Stackdriver Profiler agent initialization"
     ∈ events (initStackdriverProfiling failing_agents ∅)) /\
  last (events (initStackdriverProfiling failing_agents ∅)) = Some (Sleep 1).
Proof.
  assert (forall retry, 1 <= retry <= 3 ->
     exists exc, googlecloudprofiler_start failing_agents retry
                   (passed_project_id ((∅ : gmap string string) !! "GCP_PROJECT_ID"))
                 = Raise exc) as Hall
    by (intros retry _; exists (BaseException "interrupted"); reflexivity).
  split; [exact Hall|].
  exact (profiler_gives_up_after_three failing_agents ∅ Hall).
Defined.

(** X14: the profiler block delays the start-up by three seconds at most,
    whatever the agent does and whatever the log lines announce; with
    DISABLE_PROFILER set it does not sleep at all. *)
Theorem profiler_delay_bound (a : agents) (environ : gmap string string) :
  0 <= total_sleep (events (main_profiler a environ)) <= 3 /\
  (in_environ "DISABLE_PROFILER" environ = true ->
   total_sleep (events (main_profiler a environ)) = 0).
Proof.
  unfold main_profiler, try_except.
  destruct (in_environ _ _).
  - split; [eval_total_sleep; lia | reflexivity].
  - split; [|discriminate].
    rewrite bind_unfold. cbn [logger_info emit outcome events].
    rewrite initStackdriverProfiling_returns. cbn [outcome events app].
    change (total_sleep (Log INFO "Profiler enabled." :: ?l)) with (total_sleep l).
    profiler_cases a environ; eval_total_sleep; lia.
Qed.

(** ** The handler's failures and the integer of line 135 *)

Lemma hexlify_length (bs : list Z) :
  String.length (hexlify bs) = (2 * length bs)%nat.
Proof. induction bs as [|b bs IH]; simpl; [reflexivity|]. rewrite IH. lia. Qed.

Lemma fold_bytes_upper (bs : list Z) (acc : Z) :
  Forall is_byte bs -> 0 <= acc ->
  fold_left (fun x b => x * 256 + b) bs acc
    < (acc + 1) * 256 ^ Z.of_nat (length bs).
Proof.
  intros H. revert acc. induction H as [|b bs Hb _ IH]; intros acc Hacc.
  - simpl. lia.
  - unfold is_byte in Hb. cbn [fold_left length].
    rewrite Nat2Z.inj_succ, Z.pow_succ_r by lia.
    assert (0 < 256 ^ Z.of_nat (length bs)) as Hp by (apply Z.pow_pos_nonneg; lia).
    specialize (IH (acc * 256 + b) ltac:(lia)).
    eapply Z.lt_le_trans; [exact IH|].
    replace ((acc + 1) * (256 * 256 ^ Z.of_nat (length bs)))
      with (((acc + 1) * 256) * 256 ^ Z.of_nat (length bs)) by ring.
    apply Z.mul_le_mono_nonneg_r; lia.
Qed.

(** X15: the hexdigest of any byte string has 40 characters, [int(., 16)]
    accepts it (no ValueError), and the integer it yields, the one that
    line 136 reduces modulo train_users, is the 160-bit unsigned value of
    the digest. *)
Theorem hexdigest_int_bounds (msg : list Z) :
  String.length (hexdigest msg) = 40%nat /\
  int16 (hexdigest msg) = Ok (digest_int (SHA1.digest msg)) /\
  0 <= digest_int (SHA1.digest msg) < 2 ^ 160.
Proof.
  split; [|split; [apply int16_hexdigest|]].
  - unfold hexdigest. rewrite hexlify_length, digest_length. reflexivity.
  - split; [apply digest_int_nonneg|].
    pose proof (fold_bytes_upper (SHA1.digest msg) 0 (digest_is_byte msg)
                  ltac:(lia)) as H.
    rewrite digest_length in H. exact H.
Qed.

(** X16: with no training user every request fails alike: the handler
    raises ZeroDivisionError at line 136, before the scoring call and
    before anything is logged, whatever the request. *)
Theorem no_users_every_request_fails (g : globals)
    (request : ListRecommendationsRequest) :
  train_users g = 0 ->
  ListRecommendations g request
    = Prog [] (Raise (ZeroDivisionError "integer division or modulo by zero")).
Proof.
  intros HN. rewrite ListRecommendations_cases.
  destruct (Resolve_unfold (train_users g) (user_id request)) as (bs & _ & ->).
  rewrite HN. reflexivity.
Qed.

Lemma no_users_every_request_fails_witness :
  train_users demo_no_users = 0 /\
  ListRecommendations demo_no_users request_abc
    = Prog [] (Raise (ZeroDivisionError "integer division or modulo by zero")).
Proof.
  split; [reflexivity|].
  apply (no_users_every_request_fails demo_no_users request_abc). reflexivity.
Defined.

(** X17: with at least one training user, the only way the handler fails is
    an exception of the scoring call for the resolved user: the handler
    passes it on unchanged and has logged nothing. *)
Theorem handler_failure_is_scoring_failure (g : globals)
    (request : ListRecommendationsRequest) (exc : exception) :
  0 < train_users g ->
  outcome (ListRecommendations g request) = Raise exc ->
  events (ListRecommendations g request) = [] /\
  exists u,
    Resolve (train_users g) (user_id request) = Ok u /\
    1 <= u <= train_users g /\
    compute_ranking_predictions g (model g) (candidates g u) = Raise exc.
Proof.
  intros HN. rewrite ListRecommendations_cases.
  destruct (Resolve_total (train_users g) (user_id request) HN) as (u & -> & Hu).
  destruct (compute_ranking_predictions g (model g) (candidates g u))
    as [ps|exc'] eqn:Es; [discriminate|].
  cbn. intros [= <-]. split; [reflexivity|]. exists u. auto.
Qed.

Lemma handler_failure_is_scoring_failure_witness :
  0 < train_users demo_failing /\
  outcome (ListRecommendations demo_failing request_abc)
    = Raise (ValueError "malformed candidate set") /\
  events (ListRecommendations demo_failing request_abc) = [] /\
  exists u,
    Resolve (train_users demo_failing) (user_id request_abc) = Ok u /\
    1 <= u <= train_users demo_failing /\
    compute_ranking_predictions demo_failing (model demo_failing)
      (candidates demo_failing u) = Raise (ValueError "malformed candidate set").
Proof.
  assert (0 < train_users demo_failing) as HN by (simpl; lia).
  assert (outcome (ListRecommendations demo_failing request_abc)
          = Raise (ValueError "malformed candidate set")) as Ho
    by (vm_compute; reflexivity).
  split; [exact HN|]. split; [exact Ho|].
  exact (handler_failure_is_scoring_failure demo_failing request_abc _ HN Ho).
Defined.

(** X18: the frame handed to the scoring call holds exactly the rows of the
    held-out partition whose userID is the resolved user, in their order;
    with N > 0 training users these are rows of users 1 to N only, so a
    held-out row of any other user is never scored. *)
Theorem scored_rows_of_resolved_user (g : globals)
    (request : ListRecommendationsRequest) (u : Z) :
  0 < train_users g ->
  Resolve (train_users g) (user_id request) = Ok u ->
  (forall r, r ∈ candidates g u <-> (r ∈ test g /\ userID r = u)) /\
  candidates g u `sublist_of` test g /\
  (forall r, r ∈ candidates g u -> 1 <= userID r <= train_users g).
Proof.
  intros HN HR.
  assert (forall r, r ∈ candidates g u <-> (r ∈ test g /\ userID r = u)) as Hin.
  { intros r. unfold candidates. rewrite list_elem_of_filter. tauto. }
  split; [exact Hin|]. split; [apply sublist_filter|].
  intros r Hr. apply Hin in Hr as [_ ->].
  destruct (Resolve_total (train_users g) (user_id request) HN) as (u' & HR' & Hu).
  congruence.
Qed.

Lemma scored_rows_of_resolved_user_witness :
  0 < train_users demo /\
  Resolve (train_users demo) (user_id request_abc) = Ok 3 /\
  (forall r, r ∈ candidates demo 3 <-> (r ∈ test demo /\ userID r = 3)) /\
  candidates demo 3 `sublist_of` test demo /\
  (forall r, r ∈ candidates demo 3 -> 1 <= userID r <= train_users demo).
Proof.
  assert (0 < train_users demo) as HN by (simpl; lia).
  assert (Resolve (train_users demo) (user_id request_abc) = Ok 3) as HR
    by (vm_compute; reflexivity).
  split; [exact HN|]. split; [exact HR|].
  exact (scored_rows_of_resolved_user demo request_abc 3 HN HR).
Defined.

Lemma InsecureChannel_origin (a : agents) (environ : gmap string string)
    (addr : string) :
  InsecureChannel addr ∈ events (main a environ) ->
  addr = catalog_addr environ /\ String.eqb (catalog_addr environ) "" = false.
Proof.
  intros He.
  destruct (main_event_cases a environ _ He)
    as [H | [H | [H | [[_ H] | (i & _ & _ & Ha & H)]]]].
  - discriminate.
  - eapply Forall_forall in H; [|apply main_profiler_shape]. destruct H.
  - eapply Forall_forall in H; [|apply main_tracing_shape]. destruct H.
  - eapply Forall_forall in H; [|apply main_debugger_shape]. destruct H.
  - split; [|exact Ha]. apply serving_events_inv in H.
    repeat (destruct H as [H | H]; try discriminate H).
    injection H as ->. reflexivity.
Qed.

(** X19: a channel to the product catalog is opened only to the value of
    PRODUCT_CATALOG_SERVICE_ADDR, and only when that value is not empty;
    every run that returns normally has opened it. *)
Theorem catalog_channel (a : agents) (environ : gmap string string) :
  (forall addr, InsecureChannel addr ∈ events (main a environ) ->
     environ !! "PRODUCT_CATALOG_SERVICE_ADDR" = Some addr /\ addr <> "") /\
  (outcome (main a environ) = Ok tt ->
   exists addr, environ !! "PRODUCT_CATALOG_SERVICE_ADDR" = Some addr /\
                InsecureChannel addr ∈ events (main a environ)).
Proof.
  split.
  - intros addr He. apply InsecureChannel_origin in He as [-> Ha].
    apply String.eqb_neq in Ha. unfold catalog_addr in *.
    destruct (environ !! "PRODUCT_CATALOG_SERVICE_ADDR") as [v|]; [auto|].
    exfalso. apply Ha. reflexivity.
  - intros Ho. apply main_returns_iff in Ho as (i & Ht & Hd & Ha).
    assert (InsecureChannel (catalog_addr environ) ∈ events (main a environ)) as Hin.
    { apply (serving_events_in_main a environ i); auto.
      unfold serving_events. rewrite elem_of_app, !elem_of_cons. tauto. }
    apply String.eqb_neq in Ha. unfold catalog_addr in *.
    destruct (environ !! "PRODUCT_CATALOG_SERVICE_ADDR") as [v|]; [eauto|].
    exfalso. apply Ha. reflexivity.
Qed.
